(** * Lecture 16 store and authors services: a shallow embedding

    The repository holds two small Django REST applications.  The views of
    [product/views.py] and [product/api_views.py], the serializers of
    [product/serializers.py], the URL table of [authors/urls.py] and the
    [CustomUser] model of [user/models.py] are embedded below as functions
    over an explicit database state.

    What the framework owns is abstracted at its interface: a request body
    arrives with every field already run through the field-level parser
    (absent, malformed, or a parsed value), and a response carries a status
    code and a JSON-like value. *)

From Stdlib Require Import ZArith List String Bool Lia.
From Stdlib Require DecimalString DecimalPos DecimalN.
Import ListNotations.
Local Open Scope Z_scope.
Set Warnings "-register-all".

(** ** rest_framework.status *)

Module status.
Definition HTTP_200_OK : Z := 200.
Definition HTTP_201_CREATED : Z := 201.
Definition HTTP_204_NO_CONTENT : Z := 204.
Definition HTTP_400_BAD_REQUEST : Z := 400.
Definition HTTP_404_NOT_FOUND : Z := 404.
Definition HTTP_500_INTERNAL_SERVER_ERROR : Z := 500.
End status.

(** ** Response bodies *)

Inductive value : Type :=
| VInt (n : Z)
| VStr (s : string)
| VList (l : list value)
| VObj (members : list (string * value)).

Record Response := mkResponse {
  data : option value;
  status_code : Z
}.

(** [Response(data=None, status=None)]: the status defaults to 200. *)
Definition mk_response (d : option value) (st : option Z) : Response :=
  {| data := d;
     status_code := match st with Some c => c | None => status.HTTP_200_OK end |}.

(** ** The models of the product application *)

(** Modelled from the spec: [product/models.py] is not among the sources.
    A category has its default identity and otherwise opaque columns. *)
Module Category.
Record t := mk {
  id : Z;
  columns : list (string * value)
}.
End Category.

(** Modelled from the spec: [product/models.py] is not among the sources.
    A product has a generated [id], a unique [slug], a [title], a
    [description] and a numeric [price] (kept in minor units); its
    categories live in the many-to-many link table of the database. *)
Module Product.
Record t := mk {
  id : Z;
  slug : string;
  title : string;
  description : string;
  price : Z
}.
End Product.

(** The columns of [Product] as a serializer sees them, in model order. *)
Inductive field := f_id | f_slug | f_title | f_description | f_price | f_categories.

Definition field_name (f : field) : string :=
  match f with
  | f_id => "id"
  | f_slug => "slug"
  | f_title => "title"
  | f_description => "description"
  | f_price => "price"
  | f_categories => "categories"
  end.

(** [fields = '__all__'] of a class that declares no field of its own: the
    key, the columns, then the relation. *)
Definition all_fields : list field :=
  [f_id; f_slug; f_title; f_description; f_price; f_categories].

(** [fields = '__all__'] of a class that declares [categories] itself: the
    key, then the declared field, then the columns. *)
Definition all_fields_categories_declared : list field :=
  [f_id; f_categories; f_slug; f_title; f_description; f_price].

(** ** The database *)

Record Store := mkStore {
  Product_table : list Product.t;          (* rows in storage order *)
  Category_table : list Category.t;
  product_categories : list (Z * Z);       (* (product id, category id) *)
  Product_seq : Z                          (* next generated product id *)
}.

Definition empty_store : Store :=
  {| Product_table := []; Category_table := [];
     product_categories := []; Product_seq := 1 |}.

Definition product_ids (db : Store) : list Z :=
  map Product.id (Product_table db).

Definition product_slugs (db : Store) : list string :=
  map Product.slug (Product_table db).

(** [Product.objects.filter(pk=pk).first()] *)
Definition find_product (db : Store) (pk : Z) : option Product.t :=
  find (fun p => Product.id p =? pk) (Product_table db).

(** [product.categories.all()] *)
Definition categories_of (db : Store) (pid : Z) : list Category.t :=
  filter (fun c =>
            existsb (fun l => (fst l =? pid) && (snd l =? Category.id c))
                    (product_categories db))
         (Category_table db).

Definition category_exists (db : Store) (cid : Z) : bool :=
  existsb (fun c => Category.id c =? cid) (Category_table db).

(** Is [s] the slug of a stored row other than [exclude]?  This is the
    query of the unique constraint and of the serializer's unique check. *)
Definition row_takes (exclude : option Z) (s : string) (p : Product.t) : bool :=
  String.eqb (Product.slug p) s
  && match exclude with
     | Some pk => negb (Product.id p =? pk)
     | None => true
     end.

Definition slug_taken (db : Store) (exclude : option Z) (s : string) : bool :=
  existsb (row_takes exclude s) (Product_table db).

(** ** Views: database state and exceptions *)

Inductive exn := Http404 | IntegrityError.

Definition View (A : Type) : Type := Store -> (exn + A) * Store.

Definition ret {A} (a : A) : View A := fun db => (inr a, db).

Definition raise {A} (e : exn) : View A := fun db => (inl e, db).

Definition bind {A B} (m : View A) (k : A -> View B) : View B :=
  fun db =>
    match m db with
    | (inr a, db') => k a db'
    | (inl e, db') => (inl e, db')
    end.

Definition get_store : View Store := fun db => (inr db, db).

Definition put_store (db' : Store) : View unit := fun _ => (inr tt, db').

Declare Scope view_scope.
Delimit Scope view_scope with view.
Notation "x <- m ;; k" := (bind m (fun x => k))
  (at level 61, m at next level, right associativity) : view_scope.
Notation "m ;;; k" := (bind m (fun _ => k))
  (at level 61, right associativity) : view_scope.
Local Open Scope view_scope.

(** An exception that leaves a view becomes a response: a missing row is a
    404, anything else a server error. *)
Definition exception_response (e : exn) : Response :=
  match e with
  | Http404 =>
      mk_response (Some (VObj [("detail"%string, VStr "Not found.")]))
                  (Some status.HTTP_404_NOT_FOUND)
  | IntegrityError =>
      mk_response None (Some status.HTTP_500_INTERNAL_SERVER_ERROR)
  end.

Definition handle (v : View Response) (db : Store) : Response * Store :=
  match v db with
  | (inr r, db') => (r, db')
  | (inl e, db') => (exception_response e, db')
  end.

(** [Product.objects.all()] *)
Definition Product_objects_all : View (list Product.t) :=
  db <- get_store ;; ret (Product_table db).

(** [get_object_or_404(Product, pk=pk)] *)
Definition get_object_or_404 (pk : Z) : View Product.t :=
  db <- get_store ;;
  match find_product db pk with
  | Some obj => ret obj
  | None => raise Http404
  end.

(** ** Statements against the product table *)

(** [INSERT]: the price column is NOT NULL, the slug column is UNIQUE, the
    id comes from the table's sequence. *)
Definition insert_product (slug title description : string) (price : option Z)
  : View Product.t :=
  db <- get_store ;;
  match price with
  | None => raise IntegrityError
  | Some pr =>
      if slug_taken db None slug then raise IntegrityError
      else
        let obj := Product.mk (Product_seq db) slug title description pr in
        put_store {| Product_table := Product_table db ++ [obj];
                     Category_table := Category_table db;
                     product_categories := product_categories db;
                     Product_seq := Product_seq db + 1 |} ;;;
        ret obj
  end.

(** The row [p] after [UPDATE ... WHERE id = obj.id]. *)
Definition replace_row (obj p : Product.t) : Product.t :=
  if Product.id p =? Product.id obj then obj else p.

(** [UPDATE ... WHERE id = obj.id], under the same UNIQUE constraint. *)
Definition update_product (obj : Product.t) : View unit :=
  db <- get_store ;;
  if slug_taken db (Some (Product.id obj)) (Product.slug obj)
  then raise IntegrityError
  else
    put_store {| Product_table :=
                   map (replace_row obj)
                       (Product_table db);
                 Category_table := Category_table db;
                 product_categories := product_categories db;
                 Product_seq := Product_seq db |}.

(** [obj.categories.set(cids)] *)
Definition set_categories (pid : Z) (cids : list Z) : View unit :=
  db <- get_store ;;
  put_store {| Product_table := Product_table db;
               Category_table := Category_table db;
               product_categories :=
                 filter (fun l => negb (fst l =? pid)) (product_categories db)
                 ++ map (fun c => (pid, c)) cids;
               Product_seq := Product_seq db |}.

(** [obj.delete()]: the row goes, and its link rows with it. *)
Definition delete_object (obj : Product.t) : View unit :=
  db <- get_store ;;
  put_store {| Product_table :=
                 filter (fun p => negb (Product.id p =? Product.id obj))
                        (Product_table db);
               Category_table := Category_table db;
               product_categories :=
                 filter (fun l => negb (fst l =? Product.id obj))
                        (product_categories db);
               Product_seq := Product_seq db |}.

(** ** Request bodies *)

(** A field of [request.data] after the field's own parsing. *)
Inductive input (A : Type) : Type :=
| Absent
| Malformed
| Parsed (a : A).
Arguments Absent {A}.
Arguments Malformed {A}.
Arguments Parsed {A} a.

Record Data := mkData {
  d_slug : input string;
  d_title : input string;
  d_description : input string;
  d_price : input Z;
  d_categories : input (list Z)
}.

Record Request := mkRequest { request_data : Data }.

(** ** Model serializers *)

(** A [ModelSerializer] subclass: its [Meta.fields], and whether the class
    body declares [categories = CategorySerializer(many=True, read_only=True)]
    in place of the default writable list of primary keys. *)
Record ModelSerializer := mkSerializerClass {
  Meta_fields : list field;
  categories_nested_read_only : bool
}.

Definition ProductListSerializer : ModelSerializer :=
  {| Meta_fields := [f_id; f_slug; f_title; f_description; f_price];
     categories_nested_read_only := false |}.

Definition ProductDetailSerializer : ModelSerializer :=
  {| Meta_fields := all_fields_categories_declared;
     categories_nested_read_only := true |}.

Definition ProductCreateSerializer : ModelSerializer :=
  {| Meta_fields := [f_id; f_slug; f_title; f_price];
     categories_nested_read_only := false |}.

(** The generated key is never editable; [categories] is read-only where
    the class declares it so. *)
Definition read_only (cls : ModelSerializer) (f : field) : bool :=
  match f with
  | f_id => true
  | f_categories => categories_nested_read_only cls
  | _ => false
  end.

(** [CategorySerializer], [fields = '__all__'] *)
Definition category_representation (c : Category.t) : value :=
  VObj (("id"%string, VInt (Category.id c)) :: Category.columns c).

Definition field_representation
  (cls : ModelSerializer) (db : Store) (obj : Product.t) (f : field) : value :=
  match f with
  | f_id => VInt (Product.id obj)
  | f_slug => VStr (Product.slug obj)
  | f_title => VStr (Product.title obj)
  | f_description => VStr (Product.description obj)
  | f_price => VInt (Product.price obj)
  | f_categories =>
      let cats := categories_of db (Product.id obj) in
      if categories_nested_read_only cls
      then VList (map category_representation cats)
      else VList (map (fun c => VInt (Category.id c)) cats)
  end.

Definition to_representation
  (cls : ModelSerializer) (db : Store) (obj : Product.t) : value :=
  VObj (map (fun f => (field_name f, field_representation cls db obj f))
            (Meta_fields cls)).

(** *** Validation *)

Inductive error_code := required | invalid | unique | does_not_exist.

Definition error_code_name (e : error_code) : string :=
  match e with
  | required => "required"
  | invalid => "invalid"
  | unique => "unique"
  | does_not_exist => "does_not_exist"
  end.

Definition Errors := list (field * error_code).

(** [serializer.errors]: a mapping from field name to its messages. *)
Definition errors_representation (errs : Errors) : value :=
  VObj (map (fun fe => (field_name (fst fe),
                        VList [VStr (error_code_name (snd fe))])) errs).

(** [serializer.validated_data] *)
Record Validated := mkValidated {
  v_slug : option string;
  v_title : option string;
  v_description : option string;
  v_price : option Z;
  v_categories : option (list Z)
}.

Definition no_validated : Validated :=
  {| v_slug := None; v_title := None; v_description := None;
     v_price := None; v_categories := None |}.

Definition set_v_slug (a : string) (v : Validated) : Validated :=
  {| v_slug := Some a; v_title := v_title v; v_description := v_description v;
     v_price := v_price v; v_categories := v_categories v |}.

Definition set_v_title (a : string) (v : Validated) : Validated :=
  {| v_slug := v_slug v; v_title := Some a; v_description := v_description v;
     v_price := v_price v; v_categories := v_categories v |}.

Definition set_v_description (a : string) (v : Validated) : Validated :=
  {| v_slug := v_slug v; v_title := v_title v; v_description := Some a;
     v_price := v_price v; v_categories := v_categories v |}.

Definition set_v_price (a : Z) (v : Validated) : Validated :=
  {| v_slug := v_slug v; v_title := v_title v; v_description := v_description v;
     v_price := Some a; v_categories := v_categories v |}.

Definition set_v_categories (a : list Z) (v : Validated) : Validated :=
  {| v_slug := v_slug v; v_title := v_title v; v_description := v_description v;
     v_price := v_price v; v_categories := Some a |}.

(** One writable field: required unless the update is partial, then the
    field's validators, then the value joins the validated data. *)
Definition run_field {A} (partial : bool) (f : field) (i : input A)
  (validator : A -> option error_code) (set : A -> Validated -> Validated)
  (acc : Errors * Validated) : Errors * Validated :=
  match i with
  | Absent => if partial then acc else (fst acc ++ [(f, required)], snd acc)
  | Malformed => (fst acc ++ [(f, invalid)], snd acc)
  | Parsed a =>
      match validator a with
      | Some e => (fst acc ++ [(f, e)], snd acc)
      | None => (fst acc, set a (snd acc))
      end
  end.

Definition no_validator {A} (_ : A) : option error_code := None.

(** The unique check leaves the row under update out of its query. *)
Definition unique_slug (db : Store) (instance : option Product.t) (s : string)
  : option error_code :=
  if slug_taken db (option_map Product.id instance) s then Some unique else None.

Definition existing_categories (db : Store) (cids : list Z) : option error_code :=
  if forallb (category_exists db) cids then None else Some does_not_exist.

Definition validate_field (db : Store) (instance : option Product.t)
  (partial : bool) (d : Data) (f : field) (acc : Errors * Validated)
  : Errors * Validated :=
  match f with
  | f_id => acc
  | f_slug => run_field partial f (d_slug d) (unique_slug db instance) set_v_slug acc
  | f_title => run_field partial f (d_title d) no_validator set_v_title acc
  | f_description =>
      run_field partial f (d_description d) no_validator set_v_description acc
  | f_price => run_field partial f (d_price d) no_validator set_v_price acc
  | f_categories =>
      run_field partial f (d_categories d) (existing_categories db)
                set_v_categories acc
  end.

Definition run_validation (cls : ModelSerializer) (db : Store)
  (instance : option Product.t) (partial : bool) (d : Data)
  : Errors * Validated :=
  fold_left (fun acc f =>
               if read_only cls f then acc
               else validate_field db instance partial d f acc)
            (Meta_fields cls) ([], no_validated).

(** *** A serializer object *)

Record Serializer := mkSerializer {
  cls : ModelSerializer;
  instance : option Product.t;
  initial_data : Data;
  partial : bool
}.

(** [serializer.is_valid()]: the validated data, or the errors. *)
Definition is_valid (s : Serializer) : View (Errors + Validated) :=
  db <- get_store ;;
  match run_validation (cls s) db (instance s) (partial s) (initial_data s) with
  | ([], vd) => ret (inr vd)
  | (errs, _) => ret (inl errs)
  end.

Definition or_default {A} (o : option A) (d : A) : A :=
  match o with Some a => a | None => d end.

Definition assign (obj : Product.t) (vd : Validated) : Product.t :=
  {| Product.id := Product.id obj;
     Product.slug := or_default (v_slug vd) (Product.slug obj);
     Product.title := or_default (v_title vd) (Product.title obj);
     Product.description := or_default (v_description vd) (Product.description obj);
     Product.price := or_default (v_price vd) (Product.price obj) |}.

Definition save_categories (pid : Z) (vd : Validated) : View unit :=
  match v_categories vd with
  | Some cids => set_categories pid cids
  | None => ret tt
  end.

(** [serializer.save()]: create a row when the serializer has no instance,
    else assign the validated attributes to the instance and write it. *)
Definition save (s : Serializer) (vd : Validated) : View Product.t :=
  match instance s with
  | None =>
      obj <- insert_product (or_default (v_slug vd) EmptyString)
                            (or_default (v_title vd) EmptyString)
                            (or_default (v_description vd) EmptyString)
                            (v_price vd) ;;
      save_categories (Product.id obj) vd ;;;
      ret obj
  | Some obj =>
      let obj' := assign obj vd in
      update_product obj' ;;;
      save_categories (Product.id obj') vd ;;;
      ret obj'
  end.

(** [serializer.data] after a save that returned [obj]. *)
Definition serializer_data (s : Serializer) (obj : Product.t) : View value :=
  db <- get_store ;; ret (to_representation (cls s) db obj).

(** [Serializer(obj).data] *)
Definition instance_data (c : ModelSerializer) (obj : Product.t) : View value :=
  db <- get_store ;; ret (to_representation c db obj).

(** [Serializer(queryset, many=True).data] *)
Definition many_data (c : ModelSerializer) (queryset : list Product.t)
  : View value :=
  db <- get_store ;; ret (VList (map (to_representation c db) queryset)).

(** ** product/views.py: the function-based views *)

Definition product_list_view (request : Request) : View Response :=
  queryset <- Product_objects_all ;;
  d <- many_data ProductListSerializer queryset ;;
  ret (mk_response (Some d) None).

Definition product_detail_view (request : Request) (pk : Z) : View Response :=
  product <- get_object_or_404 pk ;;
  d <- instance_data ProductDetailSerializer product ;;
  ret (mk_response (Some d) None).

Definition product_create_view (request : Request) : View Response :=
  let serializer :=
    mkSerializer ProductCreateSerializer None (request_data request) false in
  v <- is_valid serializer ;;
  match v with
  | inr validated_data =>
      obj <- save serializer validated_data ;;
      d <- serializer_data serializer obj ;;
      ret (mk_response (Some d) (Some status.HTTP_201_CREATED))
  | inl errors =>
      ret (mk_response (Some (errors_representation errors))
                       (Some status.HTTP_400_BAD_REQUEST))
  end.

Definition product_update_view (request : Request) (pk : Z) : View Response :=
  obj <- get_object_or_404 pk ;;
  let serializer :=
    mkSerializer ProductCreateSerializer (Some obj) (request_data request) false in
  v <- is_valid serializer ;;
  match v with
  | inr validated_data =>
      obj' <- save serializer validated_data ;;
      d <- serializer_data serializer obj' ;;
      ret (mk_response (Some d) None)
  | inl errors =>
      ret (mk_response (Some (errors_representation errors))
                       (Some status.HTTP_400_BAD_REQUEST))
  end.

Definition product_partial_update_view (request : Request) (pk : Z)
  : View Response :=
  obj <- get_object_or_404 pk ;;
  let serializer :=
    mkSerializer ProductCreateSerializer (Some obj) (request_data request) true in
  v <- is_valid serializer ;;
  match v with
  | inr validated_data =>
      obj' <- save serializer validated_data ;;
      d <- serializer_data serializer obj' ;;
      ret (mk_response (Some d) None)
  | inl errors =>
      ret (mk_response (Some (errors_representation errors))
                       (Some status.HTTP_400_BAD_REQUEST))
  end.

Definition product_delete_view (request : Request) (pk : Z) : View Response :=
  product <- get_object_or_404 pk ;;
  delete_object product ;;;
  ret (mk_response None (Some status.HTTP_204_NO_CONTENT)).

(** The views as the router calls them, under the [api_view] decorator. *)
Definition product_list request := handle (product_list_view request).
Definition product_detail request pk := handle (product_detail_view request pk).
Definition product_create request := handle (product_create_view request).
Definition product_update request pk := handle (product_update_view request pk).
Definition product_partial_update request pk :=
  handle (product_partial_update_view request pk).
Definition product_delete request pk := handle (product_delete_view request pk).

(** ** product/api_views.py: the class-based view *)

Module ProductView.

Definition get_method (request : Request) (pk : option Z) : View Response :=
  match pk with
  | None =>
      queryset <- Product_objects_all ;;
      d <- many_data ProductListSerializer queryset ;;
      ret (mk_response (Some d) (Some status.HTTP_200_OK))
  | Some pk =>
      obj <- get_object_or_404 pk ;;
      d <- instance_data ProductDetailSerializer obj ;;
      ret (mk_response (Some d) (Some status.HTTP_200_OK))
  end.

Definition post_method (request : Request) : View Response :=
  let serializer :=
    mkSerializer ProductCreateSerializer None (request_data request) false in
  v <- is_valid serializer ;;
  match v with
  | inr validated_data =>
      obj <- save serializer validated_data ;;
      d <- serializer_data serializer obj ;;
      ret (mk_response (Some d) (Some status.HTTP_201_CREATED))
  | inl errors =>
      ret (mk_response (Some (errors_representation errors))
                       (Some status.HTTP_400_BAD_REQUEST))
  end.

Definition put_method (request : Request) (pk : Z) : View Response :=
  obj <- get_object_or_404 pk ;;
  let serializer :=
    mkSerializer ProductDetailSerializer (Some obj) (request_data request) false in
  v <- is_valid serializer ;;
  match v with
  | inr validated_data =>
      obj' <- save serializer validated_data ;;
      d <- serializer_data serializer obj' ;;
      ret (mk_response (Some d) (Some status.HTTP_200_OK))
  | inl errors =>
      ret (mk_response (Some (errors_representation errors))
                       (Some status.HTTP_400_BAD_REQUEST))
  end.

Definition patch_method (request : Request) (pk : Z) : View Response :=
  obj <- get_object_or_404 pk ;;
  let serializer :=
    mkSerializer ProductDetailSerializer (Some obj) (request_data request) true in
  v <- is_valid serializer ;;
  match v with
  | inr validated_data =>
      obj' <- save serializer validated_data ;;
      d <- serializer_data serializer obj' ;;
      ret (mk_response (Some d) (Some status.HTTP_200_OK))
  | inl errors =>
      ret (mk_response (Some (errors_representation errors))
                       (Some status.HTTP_400_BAD_REQUEST))
  end.

Definition delete_method (request : Request) (pk : Z) : View Response :=
  obj <- get_object_or_404 pk ;;
  delete_object obj ;;;
  ret (mk_response None (Some status.HTTP_204_NO_CONTENT)).

(** The methods as [APIView.dispatch] calls them. *)
Definition get request pk := handle (get_method request pk).
Definition post request := handle (post_method request).
Definition put request pk := handle (put_method request pk).
Definition patch request pk := handle (patch_method request pk).
Definition delete request pk := handle (delete_method request pk).

End ProductView.

(** ** Well-formed databases *)

(** What the storage layer maintains: generated ids stay below the
    sequence, and both the primary key and the slug are unique. *)
Record store_ok (db : Store) : Prop := mk_store_ok {
  ids_below_seq : Forall (fun i => i < Product_seq db) (product_ids db);
  ids_nodup : NoDup (product_ids db);
  slugs_nodup : NoDup (product_slugs db)
}.

(** The database after [UPDATE] of the row [obj] and, when categories were
    validated, after resetting its links. *)
Definition links_after (links : list (Z * Z)) (pid : Z) (cats : option (list Z))
  : list (Z * Z) :=
  match cats with
  | Some cids =>
      filter (fun l => negb (fst l =? pid)) links ++ map (fun c => (pid, c)) cids
  | None => links
  end.

Definition after_update (db : Store) (obj : Product.t) (cats : option (list Z))
  : Store :=
  {| Product_table :=
       map (replace_row obj)
           (Product_table db);
     Category_table := Category_table db;
     product_categories :=
       links_after (product_categories db) (Product.id obj) cats;
     Product_seq := Product_seq db |}.

Definition after_insert (db : Store) (obj : Product.t) (cats : option (list Z))
  : Store :=
  {| Product_table := Product_table db ++ [obj];
     Category_table := Category_table db;
     product_categories :=
       links_after (product_categories db) (Product.id obj) cats;
     Product_seq := Product_seq db + 1 |}.

Definition after_delete (db : Store) (pk : Z) : Store :=
  {| Product_table :=
       filter (fun p => negb (Product.id p =? pk)) (Product_table db);
     Category_table := Category_table db;
     product_categories :=
       filter (fun l => negb (fst l =? pk)) (product_categories db);
     Product_seq := Product_seq db |}.

Definition new_row (db : Store) (vd : Validated) (pr : Z) : Product.t :=
  Product.mk (Product_seq db)
             (or_default (v_slug vd) EmptyString)
             (or_default (v_title vd) EmptyString)
             (or_default (v_description vd) EmptyString) pr.

Definition bad_request (errs : Errors) : Response :=
  mk_response (Some (errors_representation errs))
              (Some status.HTTP_400_BAD_REQUEST).

(** The four update views share one body, up to the serializer class, the
    [partial] flag and the way the success status is written. *)
Definition update_view (c : ModelSerializer) (p : bool) (st : option Z)
  (request : Request) (pk : Z) : View Response :=
  obj <- get_object_or_404 pk ;;
  let serializer := mkSerializer c (Some obj) (request_data request) p in
  v <- is_valid serializer ;;
  match v with
  | inr validated_data =>
      obj' <- save serializer validated_data ;;
      d <- serializer_data serializer obj' ;;
      ret (mk_response (Some d) st)
  | inl errors =>
      ret (mk_response (Some (errors_representation errors))
                       (Some status.HTTP_400_BAD_REQUEST))
  end.

(** ** The routed surface of the product application *)

(** The entries of [product/urls.py], the class-based ones split by method. *)
Inductive endpoint :=
| ep_product_list
| ep_product_detail (pk : Z)
| ep_product_create
| ep_product_update (pk : Z)
| ep_product_partial_update (pk : Z)
| ep_product_delete (pk : Z)
| ep_class_get (pk : option Z)
| ep_class_post
| ep_class_put (pk : Z)
| ep_class_patch (pk : Z)
| ep_class_delete (pk : Z).

Definition serve (e : endpoint) (request : Request) (db : Store)
  : Response * Store :=
  match e with
  | ep_product_list => product_list request db
  | ep_product_detail pk => product_detail request pk db
  | ep_product_create => product_create request db
  | ep_product_update pk => product_update request pk db
  | ep_product_partial_update pk => product_partial_update request pk db
  | ep_product_delete pk => product_delete request pk db
  | ep_class_get pk => ProductView.get request pk db
  | ep_class_post => ProductView.post request db
  | ep_class_put pk => ProductView.put request pk db
  | ep_class_patch pk => ProductView.patch request pk db
  | ep_class_delete pk => ProductView.delete request pk db
  end.

(** A history of requests, served in order. *)
Fixpoint serve_all (calls : list (endpoint * Request)) (db : Store) : Store :=
  match calls with
  | [] => db
  | (e, request) :: rest => serve_all rest (snd (serve e request db))
  end.

(** What one request can do to the database. *)
Inductive statement : Store -> Store -> Prop :=
| st_none db : statement db db
| st_insert db obj cats :
    Product.id obj = Product_seq db ->
    slug_taken db None (Product.slug obj) = false ->
    statement db (after_insert db obj cats)
| st_update db obj cats :
    slug_taken db (Some (Product.id obj)) (Product.slug obj) = false ->
    statement db (after_update db obj cats)
| st_delete db pk : statement db (after_delete db pk).




(** ** authors/models.py *)

Module Author.
Record t := mk {
  id : Z;
  fullname : string;           (* CharField(max_length=255) *)
  born_date : Z                (* DateField: a calendar day, as a day number *)
}.
End Author.

(** ** authors/urls.py *)

(** The two names imported from [authors.views]. *)
Inductive author_view := authors_list_view | author_detail_view.

Inductive route_part :=
| literal (s : string)
| int_param (name : string).         (* <int:name> *)

Record url_pattern := path {
  route : list route_part;
  view : author_view;
  name : string
}.

Definition urlpatterns : list url_pattern :=
  [ path [] authors_list_view "authors-list";
    path [int_param "pk"; literal "/"] author_detail_view "author-detail" ].

Fixpoint strip_prefix (pre s : string) : option string :=
  match pre, s with
  | EmptyString, _ => Some s
  | String a pre', String b s' =>
      if Ascii.eqb a b then strip_prefix pre' s' else None
  | String _ _, EmptyString => None
  end.

Definition digit_of (c : Ascii.ascii) : option Z :=
  let n := Z.of_nat (Ascii.nat_of_ascii c) in
  if (48 <=? n) && (n <=? 57) then Some (n - 48) else None.

(** The longest run of decimal digits at the head of [s], read as a number,
    with how many digits it had and what follows it. *)
Fixpoint read_digits (s : string) (acc : Z) (count : nat) : Z * nat * string :=
  match s with
  | EmptyString => (acc, count, s)
  | String c s' =>
      match digit_of c with
      | Some d => read_digits s' (10 * acc + d) (S count)
      | None => (acc, count, s)
      end
  end.

(** A route matches a whole path, binding its parameters. *)
Fixpoint match_route (r : list route_part) (s : string)
  : option (list (string * Z)) :=
  match r with
  | [] => match s with EmptyString => Some [] | _ => None end
  | literal l :: r' =>
      match strip_prefix l s with
      | Some s' => match_route r' s'
      | None => None
      end
  | int_param n :: r' =>
      match read_digits s 0 O with
      | (_, O, _) => None
      | (v, _, s') =>
          match match_route r' s' with
          | Some kwargs => Some ((n, v) :: kwargs)
          | None => None
          end
      end
  end.

(** The first pattern that matches wins. *)
Fixpoint resolve (patterns : list url_pattern) (s : string)
  : option (author_view * list (string * Z)) :=
  match patterns with
  | [] => None
  | p :: rest =>
      match match_route (route p) s with
      | Some kwargs => Some (view p, kwargs)
      | None => resolve rest s
      end
  end.





Definition kwarg (n : string) (kwargs : list (string * Z)) : option Z :=
  option_map snd (find (fun kv => String.eqb (fst kv) n) kwargs).


(** ** user/models.py *)

Module CustomUser.

Record t := mk {
  email : string;
  first_name : string;
  last_name : string;
  is_active : bool;
  is_staff : bool;
  date_joined : Z              (* a timestamp *)
}.

(** The options of a character column that the class body sets. *)
Record CharField := mkCharField {
  max_length : Z;
  blank : bool;
  unique : bool
}.

(** [EmailField(unique=True)]; an email column is 254 characters wide. *)
Definition email_field : CharField := mkCharField 254 false true.
(** [CharField(max_length=30, blank=True)] *)
Definition first_name_field : CharField := mkCharField 30 true false.
Definition last_name_field : CharField := mkCharField 30 true false.
(** [BooleanField(default=True)], [BooleanField(default=False)] *)
Definition is_active_default : bool := true.
Definition is_staff_default : bool := false.

Definition USERNAME_FIELD : string := "email".
Definition REQUIRED_FIELDS : list string := [].

(** The keyword arguments of [CustomUser(...)]: a field is supplied or not. *)
Record kwargs := mk_kwargs {
  kw_email : option string;
  kw_first_name : option string;
  kw_last_name : option string;
  kw_is_active : option bool;
  kw_is_staff : option bool;
  kw_date_joined : option Z
}.

(** [CustomUser(...)] at clock reading [now]: a field that is not
    supplied takes its default, the empty string for a character column
    and a fresh [timezone.now()] for [date_joined]. *)
Definition new (now : Z) (kw : kwargs) : t :=
  {| email := or_default (kw_email kw) EmptyString;
     first_name := or_default (kw_first_name kw) EmptyString;
     last_name := or_default (kw_last_name kw) EmptyString;
     is_active := or_default (kw_is_active kw) is_active_default;
     is_staff := or_default (kw_is_staff kw) is_staff_default;
     date_joined := or_default (kw_date_joined kw) now |}.

(** [get_username()]: the value of the [USERNAME_FIELD] column. *)
Definition get_username (u : t) : string := email u.

Inductive field_error := blank_error | max_length_error.

(** The number of characters of a string held as UTF-8 bytes: every byte
    but the continuation bytes [10xxxxxx] starts one. *)
Fixpoint characters (v : string) : Z :=
  match v with
  | EmptyString => 0
  | String c v' =>
      (if Z.land (Z.of_nat (Ascii.nat_of_ascii c)) 192 =? 128 then 0 else 1)
      + characters v'
  end.

(** Field validation of a character column: an empty value is accepted
    exactly when the column is [blank=True]; otherwise the length in
    characters is checked.  (The address syntax check of an email column
    is the framework's and is not modelled.) *)
Definition clean_char_field (f : CharField) (v : string) : option field_error :=
  match v with
  | EmptyString => if blank f then None else Some blank_error
  | _ => if characters v <=? max_length f then None
         else Some max_length_error
  end.

Definition emails (users : list t) : list string := map email users.

(** [user.save()] of a new row: the email column is UNIQUE. *)
Definition save (u : t) (users : list t) : exn + list t :=
  if existsb (fun v => String.eqb (email v) (email u)) users
  then inl IntegrityError
  else inr (users ++ [u]).

(** The user table after an attempt to save [u]. *)
Definition saved (u : t) (users : list t) : list t :=
  match save u users with
  | inr users' => users'
  | inl _ => users
  end.

End CustomUser.

(** ** Reading the routed surface *)

(** The same request with another [description] entry in its body. *)
Definition with_description (de : input string) (request : Request) : Request :=
  let d := request_data request in
  mkRequest (mkData (d_slug d) (d_title d) de (d_price d) (d_categories d)).

(** The same request with another [categories] entry in its body. *)
Definition with_categories (cs : input (list Z)) (request : Request) : Request :=
  let d := request_data request in
  mkRequest (mkData (d_slug d) (d_title d) (d_description d) (d_price d) cs).

(** The primary key an endpoint addresses, when its URL carries one. *)
Definition target (e : endpoint) : option Z :=
  match e with
  | ep_product_detail pk | ep_product_update pk | ep_product_partial_update pk
  | ep_product_delete pk | ep_class_put pk | ep_class_patch pk
  | ep_class_delete pk => Some pk
  | ep_class_get pk => pk
  | ep_product_list | ep_product_create | ep_class_post => None
  end.



(** The statuses a view answers with when nothing goes wrong inside it. *)
Definition answered (r : Response) : Prop :=
  In (status_code r)
     [status.HTTP_200_OK; status.HTTP_201_CREATED; status.HTTP_204_NO_CONTENT;
      status.HTTP_400_BAD_REQUEST; status.HTTP_404_NOT_FOUND].

(** ** Sample data *)

Definition sample_db : Store :=
  {| Product_table :=
       [ Product.mk 1 "tea" "Green tea" "Loose leaf" 450;
         Product.mk 2 "mug" "Mug" "" 900 ];
     Category_table := [ Category.mk 1 [("name"%string, VStr "Drinks")] ];
     product_categories := [(1, 1)];
     Product_seq := 3 |}.

Definition empty_request : Request :=
  mkRequest (mkData Absent Absent Absent Absent Absent).

Definition sample_body (s t : string) (de : input string) (pr : Z) : Request :=
  mkRequest (mkData (Parsed s) (Parsed t) de (Parsed pr) (Parsed [7])).


Definition sample_users : list CustomUser.t :=
  [ CustomUser.mk "ana@example.com" "Ana" "" true false 100 ].

Definition chai_update : Request :=
  sample_body "chai" "Chai" (Parsed "A spiced blend"%string) 500.

Definition tea_again : Request := sample_body "tea" "Black tea" Absent 300.

Definition new_cup : Request := sample_body "cup" "Cup" Absent 250.


(** A serializer like [ProductDetailSerializer] but without the nested
    read-only declaration of [categories]. *)
Definition writable_categories_serializer : ModelSerializer :=
  {| Meta_fields := all_fields; categories_nested_read_only := false |}.

Definition only_categories (cids : list Z) : Request :=
  mkRequest (mkData Absent Absent Absent Absent (Parsed cids)).

Definition only_email (e : string) : CustomUser.kwargs :=
  CustomUser.mk_kwargs (Some e) None None None None None.

(** ** product/urls.py *)

Inductive http_method := GET | POST | PUT | PATCH | DELETE.

Definition http_method_eqb (a b : http_method) : bool :=
  match a, b with
  | GET, GET | POST, POST | PUT, PUT | PATCH, PATCH | DELETE, DELETE => true
  | _, _ => false
  end.

(** The names [product/urls.py] imports and routes to. *)
Inductive product_view :=
| view_product_list
| view_product_detail
| view_product_create
| view_product_update
| view_product_partial_update
| view_product_delete
| view_ProductView.

Record product_url := product_path {
  product_route : list route_part;
  routed_view : product_view;
  route_name : string
}.

Definition product_urlpatterns : list product_url :=
  [ (* Function-based views *)
    product_path [literal "products/"] view_product_list "product_list";
    product_path [literal "products/"; int_param "pk"; literal "/"]
                 view_product_detail "product_detail";
    product_path [literal "create/"] view_product_create "product_create";
    product_path [literal "update/"; int_param "pk"; literal "/"]
                 view_product_update "product_update";
    product_path [literal "partial_update/"; int_param "pk"; literal "/"]
                 view_product_partial_update "product_partial_update";
    product_path [literal "delete/"; int_param "pk"]
                 view_product_delete "product_delete";
    (* Class-based views *)
    product_path [literal "class_products/"] view_ProductView "class_product_list";
    product_path [literal "class_products/"; int_param "pk"; literal "/"]
                 view_ProductView "class_product_detail" ].

(** The first pattern that matches wins, as for the authors table. *)
Fixpoint resolve_product (patterns : list product_url) (s : string)
  : option (product_view * list (string * Z)) :=
  match patterns with
  | [] => None
  | p :: rest =>
      match match_route (product_route p) s with
      | Some kwargs => Some (routed_view p, kwargs)
      | None => resolve_product rest s
      end
  end.

(** The method list of each [@api_view([...])] decorator in
    [product/views.py]; the class-based view has none, it answers the
    methods it defines. *)
Definition api_view_methods (v : product_view) : list http_method :=
  match v with
  | view_product_list => [GET]
  | view_product_detail => [GET]
  | view_product_create => [POST]
  | view_product_update => [PUT]
  | view_product_partial_update => [PATCH]
  | view_product_delete => [DELETE]
  | view_ProductView => [GET; POST; PUT; PATCH; DELETE]
  end.

Definition HTTP_405_METHOD_NOT_ALLOWED : Z := 405.

(** No pattern matched the path. *)
Definition page_not_found : Response :=
  mk_response None (Some status.HTTP_404_NOT_FOUND).

Definition method_name (m : http_method) : string :=
  match m with
  | GET => "GET"
  | POST => "POST"
  | PUT => "PUT"
  | PATCH => "PATCH"
  | DELETE => "DELETE"
  end.

(** The double quote character, as a string. *)
Definition quote : string := String (Ascii.ascii_of_nat 34) EmptyString.

(** The framework's answer to a method a view does not take; its detail
    names the method of the request between double quotes. *)
Definition method_not_allowed (m : http_method) : Response :=
  mk_response
    (Some (VObj [("detail"%string,
                  VStr ("Method " ++ quote ++ method_name m ++ quote
                        ++ " not allowed.")%string)]))
    (Some HTTP_405_METHOD_NOT_ALLOWED).

(** A call whose keyword arguments do not fit the signature of the view
    raises [TypeError], which no handler catches. *)
Definition server_error : Response :=
  mk_response None (Some status.HTTP_500_INTERNAL_SERVER_ERROR).

(** [handler(request, **kwargs)] for the view a route names, with the
    keyword arguments the route bound.  The signatures are those of
    [product/views.py] and of the methods of [ProductView]: [get] takes an
    optional [pk], [post] none, [put], [patch] and [delete] a required one. *)
Definition call_view (v : product_view) (m : http_method) (pk : option Z)
  (request : Request) (db : Store) : Response * Store :=
  if negb (existsb (http_method_eqb m) (api_view_methods v))
  then (method_not_allowed m, db)
  else
    match v, pk with
    | view_product_list, None => product_list request db
    | view_product_detail, Some pk => product_detail request pk db
    | view_product_create, None => product_create request db
    | view_product_update, Some pk => product_update request pk db
    | view_product_partial_update, Some pk =>
        product_partial_update request pk db
    | view_product_delete, Some pk => product_delete request pk db
    | view_ProductView, _ =>
        match m, pk with
        | GET, _ => ProductView.get request pk db
        | POST, None => ProductView.post request db
        | PUT, Some pk => ProductView.put request pk db
        | PATCH, Some pk => ProductView.patch request pk db
        | DELETE, Some pk => ProductView.delete request pk db
        | _, _ => (server_error, db)
        end
    | _, _ => (server_error, db)
    end.

(** One HTTP request against the product URL table, for the five methods
    the views are written for and a body the framework could parse.  HEAD
    and OPTIONS, which the framework answers by itself, are left out, and
    so is middleware: a path that no pattern matches is answered 404. *)
Definition http (m : http_method) (s : string) (request : Request) (db : Store)
  : Response * Store :=
  match resolve_product product_urlpatterns s with
  | Some (v, kwargs) => call_view v m (kwarg "pk" kwargs) request db
  | None => (page_not_found, db)
  end.

Fixpoint http_all (calls : list (http_method * string * Request)) (db : Store)
  : Store :=
  match calls with
  | [] => db
  | (m, s, request) :: rest => http_all rest (snd (http m s request db))
  end.

(** The decimal notation of a primary key, as it appears in a URL. *)
Definition decimal (n : Z) : string :=
  DecimalString.NilEmpty.string_of_uint (N.to_uint (Z.to_N n)).

(** ** Further readings of a request and of the database *)

(** The value a body supplies for a field, if it does. *)
Definition supplied {A} (i : input A) : option A :=
  match i with Parsed a => Some a | _ => None end.

Definition malformed {A} (i : input A) : bool :=
  match i with Malformed => true | _ => false end.

(** Every link row refers to a stored product, as the foreign key of the
    link table demands. *)
Definition links_ok (db : Store) : Prop :=
  Forall (fun l => In (fst l) (product_ids db)) (product_categories db).

Definition sample_patch : Request :=
  mkRequest (mkData Absent (Parsed "Sencha"%string) (Parsed "Steamed"%string)
                    Absent (Parsed [7])).


(** The parameter names of a route, in order. *)
Fixpoint route_params (r : list route_part) : list string :=
  match r with
  | [] => []
  | literal _ :: r' => route_params r'
  | int_param n :: r' => n :: route_params r'
  end.

(** A call of [ProductView] whose keyword arguments do not fit the method:
    [post] given a [pk], or [put], [patch], [delete] given none. *)
Definition signature_mismatch (m : http_method) (pk : option Z) : bool :=
  match m, pk with
  | POST, Some _ => true
  | PUT, None | PATCH, None | DELETE, None => true
  | _, _ => false
  end.


(** ** The authors surface over HTTP *)


(** * Lemmas *)

Lemma find_product_id db pk obj :
  find_product db pk = Some obj -> Product.id obj = pk.
Proof.
  unfold find_product. intros H. apply find_some in H.
  destruct H as [_ H]. now apply Z.eqb_eq.
Qed.

Lemma find_product_In db pk obj :
  find_product db pk = Some obj -> In pk (product_ids db).
Proof.
  unfold find_product, product_ids. intros H.
  pose proof (find_some _ _ H) as [Hin Heq].
  apply Z.eqb_eq in Heq. subst pk. now apply in_map.
Qed.

Lemma find_product_None db pk :
  find_product db pk = None <-> ~ In pk (product_ids db).
Proof.
  unfold find_product, product_ids. split.
  - intros H Hin. apply in_map_iff in Hin. destruct Hin as [p [Hp Hin]].
    pose proof (find_none _ _ H p Hin) as Hf. simpl in Hf.
    rewrite Hp, Z.eqb_refl in Hf. discriminate.
  - intros H. destruct (find _ _) eqn:E; [|reflexivity].
    exfalso. apply H. apply find_some in E. destruct E as [Hin Heq].
    apply Z.eqb_eq in Heq. subst pk. now apply in_map.
Qed.

(** Closed forms of the views. *)

Ltac run_view :=
  cbv beta iota zeta delta
    [handle update_view product_create_view product_delete_view
     product_detail_view product_list_view bind ret raise get_store put_store
     get_object_or_404 Product_objects_all is_valid save save_categories
     insert_product update_product set_categories delete_object
     serializer_data instance_data many_data cls instance initial_data partial].

Lemma update_view_cases c p st request pk db :
  handle (update_view c p st request pk) db =
  match find_product db pk with
  | None => (exception_response Http404, db)
  | Some obj =>
      match run_validation c db (Some obj) p (request_data request) with
      | ([], vd) =>
          let obj' := assign obj vd in
          if slug_taken db (Some (Product.id obj')) (Product.slug obj')
          then (exception_response IntegrityError, db)
          else
            let db' := after_update db obj' (v_categories vd) in
            (mk_response (Some (to_representation c db' obj')) st, db')
      | (errs, _) => (bad_request errs, db)
      end
  end.
Proof.
  run_view. destruct (find_product db pk) as [obj|]; [|reflexivity].
  destruct (run_validation c db (Some obj) p (request_data request))
    as [[|e errs] vd]; [|reflexivity].
  cbv zeta. destruct (slug_taken db (Some (Product.id (assign obj vd))) _);
    [reflexivity|].
  unfold after_update, links_after.
  destruct (v_categories vd); reflexivity.
Qed.

Lemma product_create_cases request db :
  product_create request db =
  match run_validation ProductCreateSerializer db None false
                       (request_data request) with
  | ([], vd) =>
      match v_price vd with
      | None => (exception_response IntegrityError, db)
      | Some pr =>
          let obj := new_row db vd pr in
          if slug_taken db None (Product.slug obj)
          then (exception_response IntegrityError, db)
          else
            let db' := after_insert db obj (v_categories vd) in
            (mk_response (Some (to_representation ProductCreateSerializer db' obj))
                         (Some status.HTTP_201_CREATED), db')
      end
  | (errs, _) => (bad_request errs, db)
  end.
Proof.
  unfold product_create. run_view.
  destruct (run_validation ProductCreateSerializer db None false _)
    as [[|e errs] vd]; [|reflexivity].
  destruct (v_price vd) as [pr|]; [|reflexivity].
  cbv zeta. unfold new_row. cbn [Product.slug].
  destruct (slug_taken db None _); [reflexivity|].
  unfold after_insert, links_after. cbn [Product.id].
  destruct (v_categories vd); reflexivity.
Qed.

Lemma post_is_product_create request db :
  ProductView.post request db = product_create request db.
Proof. reflexivity. Qed.

Lemma delete_cases request pk db :
  product_delete request pk db =
  match find_product db pk with
  | None => (exception_response Http404, db)
  | Some obj =>
      (mk_response None (Some status.HTTP_204_NO_CONTENT), after_delete db pk)
  end.
Proof.
  unfold product_delete. run_view.
  destruct (find_product db pk) as [obj|] eqn:E; [|reflexivity].
  apply find_product_id in E. subst pk. reflexivity.
Qed.

Lemma detail_cases request pk db :
  product_detail request pk db =
  match find_product db pk with
  | None => (exception_response Http404, db)
  | Some obj =>
      (mk_response (Some (to_representation ProductDetailSerializer db obj))
                   (Some status.HTTP_200_OK), db)
  end.
Proof.
  unfold product_detail. run_view.
  destruct (find_product db pk); reflexivity.
Qed.

(** Validation: what a pass or a failure says about the request. *)

Ltac unfold_validation :=
  unfold run_validation;
  cbv beta iota delta
    [fold_left Meta_fields ProductCreateSerializer ProductDetailSerializer
     ProductListSerializer all_fields all_fields_categories_declared
     read_only categories_nested_read_only
     validate_field].

Ltac step_validation :=
  cbv beta iota delta
    [run_field unique_slug no_validator fst snd app set_v_slug set_v_title
     set_v_description set_v_price set_v_categories no_validated
     v_slug v_title v_description v_price v_categories].

Lemma run_validation_ind (P : Errors * Validated -> Prop) c db inst p d :
  P ([], no_validated) ->
  (forall f acc, In f (Meta_fields c) -> read_only c f = false ->
                 P acc -> P (validate_field db inst p d f acc)) ->
  P (run_validation c db inst p d).
Proof.
  unfold run_validation. intros H0 Hstep.
  assert (G : forall fs acc, incl fs (Meta_fields c) -> P acc ->
    P (fold_left (fun acc f => if read_only c f then acc
                               else validate_field db inst p d f acc) fs acc)).
  { induction fs as [|f fs IH]; intros acc Hincl Hacc; simpl; [exact Hacc|].
    apply IH.
    - intros x Hx. apply Hincl. now right.
    - destruct (read_only c f) eqn:E; [exact Hacc|].
      apply Hstep; auto. apply Hincl. now left. }
  apply G; [apply incl_refl | exact H0].
Qed.

Lemma validated_slug_free c db inst p d s :
  v_slug (snd (run_validation c db inst p d)) = Some s ->
  slug_taken db (option_map Product.id inst) s = false.
Proof.
  revert s. apply run_validation_ind with
    (P := fun acc => forall s, v_slug (snd acc) = Some s ->
                               slug_taken db (option_map Product.id inst) s = false).
  - simpl. discriminate.
  - intros f acc _ _ IH s.
    destruct f; unfold validate_field, run_field; try exact (IH s).
    + destruct (d_slug d) as [| |a]; [destruct p| |]; simpl; try exact (IH s).
      unfold unique_slug.
      destruct (slug_taken db (option_map Product.id inst) a) eqn:E; simpl.
      * exact (IH s).
      * intros H. injection H as <-. exact E.
    + destruct (d_title d) as [| |a]; [destruct p| |]; simpl; exact (IH s).
    + destruct (d_description d) as [| |a]; [destruct p| |]; simpl; exact (IH s).
    + destruct (d_price d) as [| |a]; [destruct p| |]; simpl; exact (IH s).
    + destruct (d_categories d) as [| |a]; [destruct p| |]; simpl; try exact (IH s).
      destruct (existing_categories db a); simpl; exact (IH s).
Qed.

Lemma validated_categories_read_only c db inst p d :
  (In f_categories (Meta_fields c) -> read_only c f_categories = true) ->
  v_categories (snd (run_validation c db inst p d)) = None.
Proof.
  intros Hro. apply run_validation_ind with
    (P := fun acc => v_categories (snd acc) = None).
  - reflexivity.
  - intros f acc Hin Hw IH.
    destruct f; unfold validate_field, run_field; try exact IH.
    + destruct (d_slug d) as [| |a]; [destruct p| |]; simpl; try exact IH.
      destruct (unique_slug db inst a); simpl; exact IH.
    + destruct (d_title d) as [| |a]; [destruct p| |]; simpl; exact IH.
    + destruct (d_description d) as [| |a]; [destruct p| |]; simpl; exact IH.
    + destruct (d_price d) as [| |a]; [destruct p| |]; simpl; exact IH.
    + rewrite (Hro Hin) in Hw. discriminate.
Qed.

(** The restricted schema, full validation. *)
Lemma validate_create_pass db inst d s t pr :
  d_slug d = Parsed s -> d_title d = Parsed t -> d_price d = Parsed pr ->
  slug_taken db (option_map Product.id inst) s = false ->
  run_validation ProductCreateSerializer db inst false d =
  ([], mkValidated (Some s) (Some t) None (Some pr) None).
Proof.
  intros Hs Ht Hp Hfree. unfold_validation.
  rewrite Hs, Ht, Hp. step_validation. rewrite Hfree. reflexivity.
Qed.

Lemma validate_create_inv db inst d vd :
  run_validation ProductCreateSerializer db inst false d = ([], vd) ->
  exists s t pr,
    d_slug d = Parsed s /\ d_title d = Parsed t /\ d_price d = Parsed pr /\
    slug_taken db (option_map Product.id inst) s = false /\
    vd = mkValidated (Some s) (Some t) None (Some pr) None.
Proof.
  unfold_validation.
  destruct (d_slug d) as [| |s]; destruct (d_title d) as [| |t];
    destruct (d_price d) as [| |pr]; step_validation;
    try destruct (slug_taken db (option_map Product.id inst) s) eqn:E;
    intros H; try discriminate H.
  injection H as <-. exists s, t, pr. auto.
Qed.

(** The full-detail schema, full validation. *)
Lemma validate_detail_pass db inst d s t de pr :
  d_slug d = Parsed s -> d_title d = Parsed t ->
  d_description d = Parsed de -> d_price d = Parsed pr ->
  slug_taken db (option_map Product.id inst) s = false ->
  run_validation ProductDetailSerializer db inst false d =
  ([], mkValidated (Some s) (Some t) (Some de) (Some pr) None).
Proof.
  intros Hs Ht Hd Hp Hfree. unfold_validation.
  rewrite Hs, Ht, Hd, Hp. step_validation. rewrite Hfree. reflexivity.
Qed.

Lemma validate_detail_inv db inst d vd :
  run_validation ProductDetailSerializer db inst false d = ([], vd) ->
  exists s t de pr,
    d_slug d = Parsed s /\ d_title d = Parsed t /\
    d_description d = Parsed de /\ d_price d = Parsed pr /\
    slug_taken db (option_map Product.id inst) s = false /\
    vd = mkValidated (Some s) (Some t) (Some de) (Some pr) None.
Proof.
  unfold_validation.
  destruct (d_slug d) as [| |s]; destruct (d_title d) as [| |t];
    destruct (d_description d) as [| |de];
    destruct (d_price d) as [| |pr]; step_validation;
    try destruct (slug_taken db (option_map Product.id inst) s) eqn:E;
    intros H; try discriminate H.
  injection H as <-. exists s, t, de, pr. repeat split; auto.
Qed.

(** A duplicate slug is reported, whatever else the body holds. *)
Lemma validate_duplicate_slug c db inst p d s :
  In f_slug (Meta_fields c) ->
  d_slug d = Parsed s ->
  slug_taken db (option_map Product.id inst) s = true ->
  In (f_slug, unique) (fst (run_validation c db inst p d)).
Proof.
  intros Hin Hs Htaken. unfold run_validation.
  assert (Hmono : forall fs acc, In (f_slug, unique) (fst acc) ->
    In (f_slug, unique)
       (fst (fold_left (fun acc f => if read_only c f then acc
                                     else validate_field db inst p d f acc)
                       fs acc))).
  { induction fs as [|f fs IH]; intros acc Hacc; simpl; [exact Hacc|].
    apply IH. destruct (read_only c f); [exact Hacc|].
    destruct f; unfold validate_field, run_field; try exact Hacc.
    - destruct (d_slug d) as [| |a]; [destruct p| |]; simpl; auto using in_or_app.
      destruct (unique_slug db inst a); simpl; auto using in_or_app.
    - destruct (d_title d) as [| |a]; [destruct p| |]; simpl; auto using in_or_app.
    - destruct (d_description d) as [| |a]; [destruct p| |]; simpl;
        auto using in_or_app.
    - destruct (d_price d) as [| |a]; [destruct p| |]; simpl; auto using in_or_app.
    - destruct (d_categories d) as [| |a]; [destruct p| |]; simpl;
        auto using in_or_app.
      destruct (existing_categories db a); simpl; auto using in_or_app. }
  generalize (@nil (field * error_code), no_validated).
  induction (Meta_fields c) as [|f fs IH]; intros acc; [destruct Hin|].
  simpl. destruct Hin as [->|Hin].
  - apply Hmono. simpl. unfold run_field, unique_slug. rewrite Hs, Htaken.
    simpl. apply in_or_app. right. now left.
  - now apply IH.
Qed.

(** The unique-slug query against the table. *)

Lemma slug_taken_None_true db s :
  slug_taken db None s = true <-> In s (product_slugs db).
Proof.
  unfold slug_taken, product_slugs, row_takes.
  rewrite existsb_exists, in_map_iff.
  split; intros [p [H1 H2]]; exists p.
  - rewrite andb_true_r in H2. apply String.eqb_eq in H2. auto.
  - split; [exact H2|]. rewrite andb_true_r. now apply String.eqb_eq.
Qed.

Lemma slug_taken_None_false db s :
  slug_taken db None s = false <-> ~ In s (product_slugs db).
Proof.
  rewrite <- slug_taken_None_true.
  destruct (slug_taken db None s); split; intros H.
  - discriminate.
  - exfalso. now apply H.
  - intros H'. discriminate.
  - reflexivity.
Qed.

Section Rows.
Variable obj : Product.t.

Lemma replace_ids t :
  map Product.id (map (replace_row obj) t) = map Product.id t.
Proof.
  induction t as [|p t IH]; simpl; [reflexivity|]. rewrite IH. f_equal.
  unfold replace_row. destruct (Z.eqb_spec (Product.id p) (Product.id obj)); auto.
Qed.

Lemma replace_absent t :
  ~ In (Product.id obj) (map Product.id t) -> map (replace_row obj) t = t.
Proof.
  induction t as [|p t IH]; simpl; [reflexivity|]. intros H.
  rewrite IH by tauto. f_equal. unfold replace_row.
  destruct (Z.eqb_spec (Product.id p) (Product.id obj)); [|reflexivity].
  exfalso. apply H. now left.
Qed.

Lemma replace_twice t :
  map (replace_row obj) (map (replace_row obj) t) = map (replace_row obj) t.
Proof.
  rewrite map_map. apply map_ext. intros p. unfold replace_row.
  destruct (Z.eqb_spec (Product.id p) (Product.id obj)) as [E|E].
  - now rewrite Z.eqb_refl.
  - now apply Z.eqb_neq in E as ->.
Qed.

Lemma replace_slugs_in t x :
  In x (map Product.slug (map (replace_row obj) t)) ->
  x = Product.slug obj \/ In x (map Product.slug t).
Proof.
  induction t as [|p t IH]; simpl; [tauto|]. intros [H|H].
  - unfold replace_row in H.
    destruct (Product.id p =? Product.id obj); subst x; auto.
  - destruct (IH H); auto.
Qed.

Lemma others_absent t :
  existsb (row_takes (Some (Product.id obj)) (Product.slug obj)) t = false ->
  ~ In (Product.id obj) (map Product.id t) ->
  ~ In (Product.slug obj) (map Product.slug t).
Proof.
  induction t as [|p t IH]; simpl; [tauto|]. intros H Hid.
  apply orb_false_iff in H. destruct H as [H1 H2].
  intros [Hs|Hs]; [|apply IH; tauto].
  unfold row_takes in H1. rewrite Hs, String.eqb_refl in H1. simpl in H1.
  apply negb_false_iff, Z.eqb_eq in H1. tauto.
Qed.

Lemma replace_slugs_nodup t :
  NoDup (map Product.id t) -> NoDup (map Product.slug t) ->
  existsb (row_takes (Some (Product.id obj)) (Product.slug obj)) t = false ->
  NoDup (map Product.slug (map (replace_row obj) t)).
Proof.
  induction t as [|p t IH]; simpl; [constructor|].
  intros Hid Hsl Hex. inversion Hid as [|? ? Hid1 Hid2]; subst.
  inversion Hsl as [|? ? Hsl1 Hsl2]; subst.
  apply orb_false_iff in Hex. destruct Hex as [Hp Hex].
  unfold replace_row at 1.
  destruct (Z.eqb_spec (Product.id p) (Product.id obj)) as [E|E].
  - rewrite E in Hid1. rewrite replace_absent by exact Hid1.
    constructor; [|exact Hsl2]. now apply others_absent.
  - constructor; [|now apply IH].
    intros Hin. apply replace_slugs_in in Hin. destruct Hin as [Hin|Hin]; [|tauto].
    unfold row_takes in Hp. rewrite Hin, String.eqb_refl in Hp.
    apply Z.eqb_neq in E. rewrite E in Hp. discriminate.
Qed.

Lemma replace_find t pk :
  find (fun p => Product.id p =? pk) (map (replace_row obj) t) =
  option_map (replace_row obj) (find (fun p => Product.id p =? pk) t).
Proof.
  induction t as [|p t IH]; simpl; [reflexivity|].
  unfold replace_row at 1.
  destruct (Z.eqb_spec (Product.id p) (Product.id obj)) as [E|E].
  - rewrite <- E. destruct (Product.id p =? pk) eqn:F; [|exact IH].
    simpl. unfold replace_row. now rewrite E, Z.eqb_refl.
  - destruct (Product.id p =? pk) eqn:F; [|exact IH].
    simpl. unfold replace_row. now apply Z.eqb_neq in E as ->.
Qed.

Lemma replace_others t s :
  existsb (row_takes (Some (Product.id obj)) s) (map (replace_row obj) t) =
  existsb (row_takes (Some (Product.id obj)) s) t.
Proof.
  induction t as [|p t IH]; simpl; [reflexivity|].
  rewrite IH. f_equal. unfold replace_row, row_takes.
  destruct (Product.id p =? Product.id obj) eqn:E; [|now rewrite E].
  rewrite Z.eqb_refl. simpl. now rewrite andb_false_r, andb_false_r.
Qed.

End Rows.

(** The storage invariant holds initially and survives every statement. *)

Lemma store_ok_empty : store_ok empty_store.
Proof. split; simpl; constructor. Qed.

Lemma store_ok_after_insert db obj cats :
  store_ok db -> Product.id obj = Product_seq db ->
  slug_taken db None (Product.slug obj) = false ->
  store_ok (after_insert db obj cats).
Proof.
  intros [H1 H2 H3] Hid Hfree. apply slug_taken_None_false in Hfree.
  unfold product_ids, product_slugs in *.
  split; unfold product_ids, product_slugs, after_insert; simpl;
    rewrite map_app; simpl.
  - apply Forall_app. split.
    + eapply Forall_impl; [|exact H1]. simpl. intros; lia.
    + constructor; [lia|constructor].
  - apply NoDup_app; [exact H2|repeat constructor; auto|].
    intros a Ha [<-|[]]. rewrite Forall_forall in H1. apply H1 in Ha. lia.
  - apply NoDup_app; [exact H3|repeat constructor; auto|].
    intros a Ha [<-|[]]. contradiction.
Qed.

Lemma store_ok_after_update db obj cats :
  store_ok db ->
  slug_taken db (Some (Product.id obj)) (Product.slug obj) = false ->
  store_ok (after_update db obj cats).
Proof.
  intros [H1 H2 H3] Hfree.
  split; unfold product_ids, product_slugs, after_update in *; simpl.
  - now rewrite replace_ids.
  - now rewrite replace_ids.
  - apply replace_slugs_nodup; assumption.
Qed.

Lemma NoDup_map_filter {A B} (f : A -> B) (g : A -> bool) (l : list A) :
  NoDup (map f l) -> NoDup (map f (filter g l)).
Proof.
  induction l as [|a l IH]; simpl; [auto|]. intros H.
  inversion H as [|? ? Hnot Hrest]; subst.
  destruct (g a); simpl; auto. constructor; auto.
  intros Hin. apply Hnot. apply in_map_iff in Hin.
  destruct Hin as [q [Hq Hin]]. apply filter_In in Hin.
  rewrite <- Hq. apply in_map. tauto.
Qed.

Lemma store_ok_after_delete db pk : store_ok db -> store_ok (after_delete db pk).
Proof.
  intros [H1 H2 H3].
  split; unfold product_ids, product_slugs, after_delete in *; simpl.
  - rewrite Forall_forall in *. intros x Hx. apply H1.
    apply in_map_iff in Hx. destruct Hx as [p [<- Hp]].
    apply filter_In in Hp. apply in_map. tauto.
  - now apply NoDup_map_filter.
  - now apply NoDup_map_filter.
Qed.

#[local] Hint Constructors statement : core.

Lemma update_view_statement c p st request pk db :
  statement db (snd (handle (update_view c p st request pk) db)).
Proof.
  rewrite update_view_cases. destruct (find_product db pk) as [obj|]; simpl; auto.
  destruct (run_validation c db (Some obj) p (request_data request))
    as [[|e errs] vd]; simpl; auto.
  destruct (slug_taken db _ _) eqn:E; simpl; auto.
Qed.

Lemma product_create_statement request db :
  statement db (snd (product_create request db)).
Proof.
  rewrite product_create_cases.
  destruct (run_validation ProductCreateSerializer db None false _)
    as [[|e errs] vd]; simpl; auto.
  destruct (v_price vd) as [pr|]; simpl; auto.
  destruct (slug_taken db None _) eqn:E; simpl; auto.
Qed.

Lemma product_delete_statement request pk db :
  statement db (snd (product_delete request pk db)).
Proof.
  rewrite delete_cases. destruct (find_product db pk); simpl; auto.
Qed.

Lemma product_detail_store request pk db :
  snd (product_detail request pk db) = db.
Proof. rewrite detail_cases. now destruct (find_product db pk). Qed.

Lemma serve_statement e request db : statement db (snd (serve e request db)).
Proof.
  destruct e as [ |pk| |pk|pk|pk|[pk|]| |pk|pk|pk]; simpl.
  - apply st_none.
  - rewrite product_detail_store. apply st_none.
  - apply product_create_statement.
  - apply (update_view_statement ProductCreateSerializer false None).
  - apply (update_view_statement ProductCreateSerializer true None).
  - apply product_delete_statement.
  - change (ProductView.get request (Some pk) db)
      with (product_detail request pk db).
    rewrite product_detail_store. apply st_none.
  - apply st_none.
  - apply product_create_statement.
  - apply (update_view_statement ProductDetailSerializer false
             (Some status.HTTP_200_OK)).
  - apply (update_view_statement ProductDetailSerializer true
             (Some status.HTTP_200_OK)).
  - apply product_delete_statement.
Qed.

Lemma statement_ok db db' : store_ok db -> statement db db' -> store_ok db'.
Proof.
  intros Hok H. destruct H.
  - exact Hok.
  - now apply store_ok_after_insert.
  - now apply store_ok_after_update.
  - now apply store_ok_after_delete.
Qed.

Lemma serve_all_ok calls db : store_ok db -> store_ok (serve_all calls db).
Proof.
  revert db. induction calls as [|[e r] rest IH]; intros db Hok; simpl; auto.
  apply IH. eapply statement_ok; [exact Hok|apply serve_statement].
Qed.





(** Re-running an update. *)

Lemma run_validation_ext c db1 db2 i1 i2 p d :
  (forall s, slug_taken db1 (option_map Product.id i1) s =
             slug_taken db2 (option_map Product.id i2) s) ->
  Category_table db1 = Category_table db2 ->
  run_validation c db1 i1 p d = run_validation c db2 i2 p d.
Proof.
  intros Hs Hc. unfold run_validation.
  generalize (@nil (field * error_code), no_validated).
  induction (Meta_fields c) as [|f fs IH]; intros acc; simpl; [reflexivity|].
  rewrite <- IH. f_equal. destruct (read_only c f); [reflexivity|].
  destruct f; unfold validate_field; try reflexivity.
  - unfold run_field, unique_slug. destruct (d_slug d); try reflexivity.
    now rewrite Hs.
  - unfold run_field, existing_categories, category_exists.
    destruct (d_categories d); try reflexivity. now rewrite Hc.
Qed.

Lemma assign_id obj vd : Product.id (assign obj vd) = Product.id obj.
Proof. reflexivity. Qed.

Lemma assign_twice obj vd : assign (assign obj vd) vd = assign obj vd.
Proof.
  unfold assign. simpl.
  destruct (v_slug vd), (v_title vd), (v_description vd), (v_price vd);
    reflexivity.
Qed.

Lemma links_after_twice links pid cats :
  links_after (links_after links pid cats) pid cats = links_after links pid cats.
Proof.
  destruct cats as [cids|]; simpl; [|reflexivity].
  rewrite filter_app. f_equal.
  assert (E : filter (fun l : Z * Z => negb (fst l =? pid))
                     (map (fun c => (pid, c)) cids) = []).
  { induction cids as [|c cids IH]; simpl; [reflexivity|].
    now rewrite Z.eqb_refl. }
  rewrite E, app_nil_r.
  induction links as [|l links IH]; simpl; [reflexivity|].
  destruct (negb (fst l =? pid)) eqn:F; simpl; [rewrite F|]; now rewrite IH.
Qed.

Lemma after_update_twice db obj cats :
  after_update (after_update db obj cats) obj cats = after_update db obj cats.
Proof.
  unfold after_update. simpl. now rewrite replace_twice, links_after_twice.
Qed.

Lemma after_update_find db obj' cats pk obj :
  find_product db pk = Some obj -> Product.id obj' = pk ->
  find_product (after_update db obj' cats) pk = Some obj'.
Proof.
  intros Hf Hid. unfold find_product, after_update in *. simpl.
  rewrite replace_find, Hf. simpl. unfold replace_row.
  apply find_some in Hf. destruct Hf as [_ Hf]. apply Z.eqb_eq in Hf.
  rewrite Hf, Hid, Z.eqb_refl. reflexivity.
Qed.

Lemma after_update_slug_taken db obj cats s :
  slug_taken (after_update db obj cats) (Some (Product.id obj)) s =
  slug_taken db (Some (Product.id obj)) s.
Proof. unfold slug_taken, after_update. simpl. apply replace_others. Qed.

Lemma update_view_idempotent c p st request pk db :
  handle (update_view c p st request pk)
         (snd (handle (update_view c p st request pk) db)) =
  handle (update_view c p st request pk) db.
Proof.
  rewrite (update_view_cases c p st request pk db).
  destruct (find_product db pk) as [obj|] eqn:Hf; cbn [snd].
  - destruct (run_validation c db (Some obj) p (request_data request))
      as [[|e errs] vd] eqn:Hv; cbn [snd].
    + cbv zeta.
      destruct (slug_taken db (Some (Product.id (assign obj vd)))
                           (Product.slug (assign obj vd))) eqn:Ht; cbn [snd].
      * rewrite update_view_cases, Hf, Hv. cbv zeta. now rewrite Ht.
      * rewrite update_view_cases.
        pose proof (find_product_id _ _ _ Hf) as Hid.
        rewrite (after_update_find db (assign obj vd) (v_categories vd) pk obj Hf)
          by (now rewrite assign_id).
        rewrite (run_validation_ext c _ db (Some (assign obj vd)) (Some obj)).
        -- rewrite Hv. cbv zeta. rewrite assign_twice.
           rewrite after_update_slug_taken, Ht.
           now rewrite after_update_twice.
        -- intros s. simpl. rewrite <- (assign_id obj vd).
           apply after_update_slug_taken.
        -- reflexivity.
    + rewrite update_view_cases, Hf, Hv. reflexivity.
  - rewrite update_view_cases, Hf. reflexivity.
Qed.

Lemma after_insert_find db obj cats :
  ~ In (Product.id obj) (product_ids db) ->
  find_product (after_insert db obj cats) (Product.id obj) = Some obj.
Proof.
  unfold find_product, after_insert, product_ids. simpl.
  induction (Product_table db) as [|p t IH]; simpl; intros H.
  - now rewrite Z.eqb_refl.
  - destruct (Z.eqb_spec (Product.id p) (Product.id obj)) as [E|E];
      [exfalso; auto|]. apply IH. tauto.
Qed.

Lemma seq_fresh db : store_ok db -> ~ In (Product_seq db) (product_ids db).
Proof.
  intros [H _ _] Hin. rewrite Forall_forall in H. apply H in Hin. lia.
Qed.

(** On a well-formed database no view ends in a server error: what the
    serializer lets through, the constraints of the table accept. *)

Lemma NoDup_map_inj {A B} (f : A -> B) (l : list A) x y :
  NoDup (map f l) -> In x l -> In y l -> f x = f y -> x = y.
Proof.
  induction l as [|a l IH]; simpl; [tauto|].
  intros H Hx Hy E. inversion H as [|? ? Hnot Hrest]; subst.
  destruct Hx as [->|Hx], Hy as [->|Hy]; auto.
  - exfalso. apply Hnot. rewrite E. now apply in_map.
  - exfalso. apply Hnot. rewrite <- E. now apply in_map.
Qed.

Lemma own_slug_not_taken db pk obj :
  store_ok db -> find_product db pk = Some obj ->
  slug_taken db (Some (Product.id obj)) (Product.slug obj) = false.
Proof.
  intros [_ _ Hsl] Hf. unfold find_product in Hf. apply find_some in Hf.
  destruct Hf as [Hin _]. unfold slug_taken.
  destruct (existsb _ _) eqn:E; [|reflexivity]. exfalso.
  apply existsb_exists in E. destruct E as [p [Hp Ht]].
  unfold row_takes in Ht. apply andb_true_iff in Ht. destruct Ht as [Hs Hid].
  apply String.eqb_eq in Hs.
  assert (p = obj) by (eapply NoDup_map_inj; eauto). subst p.
  rewrite Z.eqb_refl in Hid. discriminate.
Qed.

Lemma update_view_answered c p st request pk db :
  store_ok db -> st = None \/ st = Some status.HTTP_200_OK ->
  answered (fst (handle (update_view c p st request pk) db)).
Proof.
  intros Hok Hst. rewrite update_view_cases. unfold answered.
  destruct (find_product db pk) as [obj|] eqn:Hf; [|simpl; tauto].
  pose proof (validated_slug_free c db (Some obj) p (request_data request)) as Hv.
  destruct (run_validation c db (Some obj) p (request_data request))
    as [[|e errs] vd]; [|simpl; tauto].
  cbv zeta. simpl in Hv.
  assert (Hfree : slug_taken db (Some (Product.id (assign obj vd)))
                             (Product.slug (assign obj vd)) = false).
  { unfold assign. simpl. destruct (v_slug vd) as [s|]; simpl.
    - now apply Hv.
    - eapply own_slug_not_taken; eauto. }
  rewrite Hfree. destruct Hst as [-> | ->]; simpl; tauto.
Qed.

Lemma product_create_answered request db :
  answered (fst (product_create request db)).
Proof.
  rewrite product_create_cases. unfold answered.
  destruct (run_validation ProductCreateSerializer db None false
                           (request_data request)) as [[|e errs] vd] eqn:Hv;
    [|simpl; tauto].
  apply validate_create_inv in Hv.
  destruct Hv as (s & t & pr & _ & _ & _ & Hfree & ->).
  simpl in Hfree. cbn [v_price]. cbv zeta. unfold new_row.
  cbn [v_slug or_default Product.slug]. rewrite Hfree. simpl. tauto.
Qed.

Lemma serve_answered e request db :
  store_ok db -> answered (fst (serve e request db)).
Proof.
  intros Hok.
  destruct e as [ |pk| |pk|pk|pk|[pk|]| |pk|pk|pk]; simpl.
  - unfold answered. simpl. tauto.
  - rewrite detail_cases. unfold answered.
    destruct (find_product db pk); simpl; tauto.
  - apply product_create_answered.
  - apply (update_view_answered ProductCreateSerializer false None); auto.
  - apply (update_view_answered ProductCreateSerializer true None); auto.
  - rewrite delete_cases. unfold answered.
    destruct (find_product db pk); simpl; tauto.
  - change (ProductView.get request (Some pk) db)
      with (product_detail request pk db).
    rewrite detail_cases. unfold answered.
    destruct (find_product db pk); simpl; tauto.
  - unfold answered. simpl. tauto.
  - apply product_create_answered.
  - apply (update_view_answered ProductDetailSerializer false
             (Some status.HTTP_200_OK)); auto.
  - apply (update_view_answered ProductDetailSerializer true
             (Some status.HTTP_200_OK)); auto.
  - change (ProductView.delete request pk db)
      with (product_delete request pk db).
    rewrite delete_cases. unfold answered.
    destruct (find_product db pk); simpl; tauto.
Qed.

(** Closed forms of a full update that passes validation. *)

Lemma product_update_valid request pk db obj s t pr :
  find_product db pk = Some obj ->
  d_slug (request_data request) = Parsed s ->
  d_title (request_data request) = Parsed t ->
  d_price (request_data request) = Parsed pr ->
  slug_taken db (Some pk) s = false ->
  product_update request pk db =
  (mk_response (Some (VObj [("id"%string, VInt pk); ("slug"%string, VStr s);
                            ("title"%string, VStr t); ("price"%string, VInt pr)]))
               None,
   after_update db (Product.mk pk s t (Product.description obj) pr) None).
Proof.
  intros Hf Hs Ht Hp Hfree. pose proof (find_product_id _ _ _ Hf) as Hid.
  change (product_update request pk db)
    with (handle (update_view ProductCreateSerializer false None request pk) db).
  rewrite update_view_cases, Hf.
  rewrite (validate_create_pass db (Some obj) _ s t pr Hs Ht Hp)
    by (simpl; now rewrite Hid).
  cbv zeta. unfold assign. cbn [v_slug v_title v_description v_price v_categories
                                or_default Product.id Product.slug].
  rewrite Hid, Hfree. reflexivity.
Qed.

Lemma put_valid request pk db obj s t de pr :
  find_product db pk = Some obj ->
  d_slug (request_data request) = Parsed s ->
  d_title (request_data request) = Parsed t ->
  d_description (request_data request) = Parsed de ->
  d_price (request_data request) = Parsed pr ->
  slug_taken db (Some pk) s = false ->
  ProductView.put request pk db =
  (mk_response
     (Some (VObj [("id"%string, VInt pk);
                  ("categories"%string,
                   VList (map category_representation (categories_of db pk)));
                  ("slug"%string, VStr s);
                  ("title"%string, VStr t); ("description"%string, VStr de);
                  ("price"%string, VInt pr)]))
     (Some status.HTTP_200_OK),
   after_update db (Product.mk pk s t de pr) None).
Proof.
  intros Hf Hs Ht Hd Hp Hfree. pose proof (find_product_id _ _ _ Hf) as Hid.
  change (ProductView.put request pk db)
    with (handle (update_view ProductDetailSerializer false
                              (Some status.HTTP_200_OK) request pk) db).
  rewrite update_view_cases, Hf.
  rewrite (validate_detail_pass db (Some obj) _ s t de pr Hs Ht Hd Hp)
    by (simpl; now rewrite Hid).
  cbv zeta. unfold assign. cbn [v_slug v_title v_description v_price v_categories
                                or_default Product.id Product.slug].
  rewrite Hid, Hfree. reflexivity.
Qed.

(** * Properties of the services *)

(** C1.  A full update through [product_update] runs on the restricted
    schema: whatever [description] entry the body carries, or none, makes
    no difference to the outcome; the stored description stays what it was;
    and a body with a free slug, a title and a price is accepted and writes
    exactly those three columns of the addressed row. *)
Theorem product_update_leaves_description request pk db obj :
  find_product db pk = Some obj ->
  (forall de, product_update (with_description de request) pk db
              = product_update request pk db)
  /\ option_map Product.description
       (find_product (snd (product_update request pk db)) pk)
     = Some (Product.description obj)
  /\ (forall s t pr,
        d_slug (request_data request) = Parsed s ->
        d_title (request_data request) = Parsed t ->
        d_price (request_data request) = Parsed pr ->
        slug_taken db (Some pk) s = false ->
        fst (product_update request pk db)
        = mk_response
            (Some (VObj [("id"%string, VInt pk); ("slug"%string, VStr s);
                         ("title"%string, VStr t); ("price"%string, VInt pr)]))
            None
        /\ find_product (snd (product_update request pk db)) pk
           = Some (Product.mk pk s t (Product.description obj) pr)).
Proof.
  intros Hf. pose proof (find_product_id _ _ _ Hf) as Hid. split; [|split].
  - intros de.
    change (product_update (with_description de request) pk db)
      with (handle (update_view ProductCreateSerializer false None
                                (with_description de request) pk) db).
    change (product_update request pk db)
      with (handle (update_view ProductCreateSerializer false None request pk) db).
    rewrite !update_view_cases, Hf. reflexivity.
  - change (product_update request pk db)
      with (handle (update_view ProductCreateSerializer false None request pk) db).
    rewrite update_view_cases, Hf.
    destruct (run_validation ProductCreateSerializer db (Some obj) false
                             (request_data request)) as [[|e errs] vd] eqn:Hv.
    + apply validate_create_inv in Hv.
      destruct Hv as (s & t & pr & _ & _ & _ & Hfree & ->).
      cbv zeta. unfold assign. cbn [v_slug v_title v_description v_price
                                    v_categories or_default Product.id Product.slug].
      simpl in Hfree. rewrite Hfree. cbn [snd].
      erewrite after_update_find; [reflexivity|exact Hf|exact Hid].
    + cbn [snd]. now rewrite Hf.
  - intros s t pr Hs Ht Hp Hfree.
    rewrite (product_update_valid request pk db obj s t pr Hf Hs Ht Hp Hfree).
    split; [reflexivity|]. cbn [snd].
    erewrite after_update_find; [reflexivity|exact Hf|reflexivity].
Qed.

Lemma product_update_leaves_description_witness :
  (forall de,
     product_update (with_description de chai_update) 1 sample_db
     = product_update chai_update 1 sample_db)
  /\ option_map Product.description
       (find_product (snd (product_update chai_update 1 sample_db)) 1)
     = Some "Loose leaf"%string
  /\ find_product (snd (product_update chai_update 1 sample_db)) 1
     = Some (Product.mk 1 "chai" "Chai" "Loose leaf" 500).
Proof.
  pose proof (product_update_leaves_description chai_update 1 sample_db
                (Product.mk 1 "tea" "Green tea" "Loose leaf" 450) eq_refl)
    as (H1 & H2 & H3).
  split; [exact H1|]. split; [exact H2|].
  exact (proj2 (H3 "chai"%string "Chai"%string 500 eq_refl eq_refl eq_refl eq_refl)).
Defined.

(** C2.  The function-based list, detail and delete views answer as the
    GET and DELETE methods of [ProductView] do: same status, same body,
    same resulting database, for every request and every database. *)
Theorem function_views_agree_with_ProductView request pk db :
  product_list request db = ProductView.get request None db
  /\ product_detail request pk db = ProductView.get request (Some pk) db
  /\ product_delete request pk db = ProductView.delete request pk db.
Proof. repeat split; reflexivity. Qed.

Lemma after_insert_slugs_nodup db obj cats :
  NoDup (product_slugs db) ->
  slug_taken db None (Product.slug obj) = false ->
  NoDup (product_slugs (after_insert db obj cats)).
Proof.
  intros H Hfree. apply slug_taken_None_false in Hfree.
  unfold product_slugs, after_insert in *. simpl. rewrite map_app. simpl.
  apply NoDup_app; [exact H|repeat constructor; auto|].
  intros a Ha [<-|[]]. contradiction.
Qed.

Lemma product_create_slugs_nodup request db :
  NoDup (product_slugs db) ->
  NoDup (product_slugs (snd (product_create request db))).
Proof.
  intros H. rewrite product_create_cases.
  destruct (run_validation ProductCreateSerializer db None false _)
    as [[|e errs] vd]; cbn [snd]; auto.
  destruct (v_price vd) as [pr|]; cbn [snd]; auto.
  cbv zeta. destruct (slug_taken db None _) eqn:E; cbn [snd]; auto.
  now apply after_insert_slugs_nodup.
Qed.

(** C3.  Creating a product whose slug is already stored fails validation:
    the answer is a 400 whose errors report the slug as not unique, and
    nothing is written.  Slugs stay pairwise distinct after any create. *)
Theorem create_duplicate_slug_is_rejected request db s :
  NoDup (product_slugs db) ->
  d_slug (request_data request) = Parsed s ->
  In s (product_slugs db) ->
  status_code (fst (product_create request db)) = status.HTTP_400_BAD_REQUEST
  /\ (exists errs, In (f_slug, unique) errs
                   /\ fst (product_create request db) = bad_request errs)
  /\ snd (product_create request db) = db
  /\ ProductView.post request db = product_create request db
  /\ (forall request',
        NoDup (product_slugs (snd (product_create request' db)))).
Proof.
  intros Hnd Hs Hin.
  assert (Herr : In (f_slug, unique)
                    (fst (run_validation ProductCreateSerializer db None false
                                         (request_data request)))).
  { apply validate_duplicate_slug with (s := s).
    - simpl. auto.
    - exact Hs.
    - simpl. now apply slug_taken_None_true. }
  assert (Hpost : ProductView.post request db = product_create request db)
    by reflexivity.
  assert (Hinv : forall request',
             NoDup (product_slugs (snd (product_create request' db))))
    by (intros request'; now apply product_create_slugs_nodup).
  rewrite Hpost. clear Hpost. rewrite product_create_cases.
  destruct (run_validation ProductCreateSerializer db None false
                           (request_data request))
    as [[|e errs] vd]; [destruct Herr|].
  split; [reflexivity|]. split; [|split; [reflexivity|split; [reflexivity|]]].
  - exists (e :: errs). split; [exact Herr|reflexivity].
  - exact Hinv.
Qed.

Lemma create_duplicate_slug_is_rejected_witness :
  status_code (fst (product_create tea_again sample_db)) = 400
  /\ snd (product_create tea_again sample_db) = sample_db.
Proof.
  assert (Hnd : NoDup (product_slugs sample_db)).
  { unfold product_slugs. simpl.
    repeat constructor; simpl; intuition discriminate. }
  assert (Hin : In "tea"%string (product_slugs sample_db)) by (simpl; auto).
  pose proof (create_duplicate_slug_is_rejected tea_again sample_db
                "tea"%string Hnd eq_refl Hin) as (H1 & _ & H3 & _).
  split; [exact H1|exact H3].
Defined.

Lemma product_create_valid request db s t pr :
  d_slug (request_data request) = Parsed s ->
  ~ In s (product_slugs db) ->
  d_title (request_data request) = Parsed t ->
  d_price (request_data request) = Parsed pr ->
  product_create request db =
  (mk_response
     (Some (VObj [("id"%string, VInt (Product_seq db)); ("slug"%string, VStr s);
                  ("title"%string, VStr t); ("price"%string, VInt pr)]))
     (Some status.HTTP_201_CREATED),
   after_insert db (Product.mk (Product_seq db) s t EmptyString pr) None).
Proof.
  intros Hs Hfree Ht Hp. apply slug_taken_None_false in Hfree.
  rewrite product_create_cases.
  rewrite (validate_create_pass db None _ s t pr Hs Ht Hp Hfree).
  cbn [v_price]. cbv zeta. unfold new_row.
  cbn [v_slug v_title v_description v_categories or_default Product.slug].
  rewrite Hfree. reflexivity.
Qed.

(** C4.  A create request with a slug that is not stored yet, a title and
    a price is answered with 201 and a body of exactly four members: the
    three submitted values and the id drawn from the sequence, which no
    stored product has.  The row is stored under that id. *)
Theorem create_returns_201 request db s t pr :
  store_ok db ->
  d_slug (request_data request) = Parsed s ->
  ~ In s (product_slugs db) ->
  d_title (request_data request) = Parsed t ->
  d_price (request_data request) = Parsed pr ->
  fst (product_create request db)
  = mk_response
      (Some (VObj [("id"%string, VInt (Product_seq db)); ("slug"%string, VStr s);
                   ("title"%string, VStr t); ("price"%string, VInt pr)]))
      (Some status.HTTP_201_CREATED)
  /\ ~ In (Product_seq db) (product_ids db)
  /\ find_product (snd (product_create request db)) (Product_seq db)
     = Some (Product.mk (Product_seq db) s t EmptyString pr)
  /\ ProductView.post request db = product_create request db.
Proof.
  intros Hok Hs Hfree Ht Hp.
  pose proof (seq_fresh db Hok) as Hfresh.
  change (ProductView.post request db) with (product_create request db).
  rewrite (product_create_valid request db s t pr Hs Hfree Ht Hp).
  split; [reflexivity|]. split; [exact Hfresh|]. split; [|reflexivity].
  cbn [snd].
  apply (after_insert_find db (Product.mk (Product_seq db) s t EmptyString pr)).
  exact Hfresh.
Qed.

Lemma sample_db_ok : store_ok sample_db.
Proof.
  split; unfold product_ids, product_slugs; simpl.
  - repeat constructor.
  - repeat constructor; simpl; intuition discriminate.
  - repeat constructor; simpl; intuition discriminate.
Defined.

Lemma create_returns_201_witness :
  fst (product_create new_cup sample_db)
  = mk_response
      (Some (VObj [("id"%string, VInt 3); ("slug"%string, VStr "cup");
                   ("title"%string, VStr "Cup"); ("price"%string, VInt 250)]))
      (Some 201)
  /\ find_product (snd (product_create new_cup sample_db)) 3
     = Some (Product.mk 3 "cup" "Cup" EmptyString 250).
Proof.
  assert (Hfree : ~ In "cup"%string (product_slugs sample_db)).
  { simpl. intuition discriminate. }
  pose proof (create_returns_201 new_cup sample_db "cup"%string "Cup"%string 250
                sample_db_ok eq_refl Hfree eq_refl eq_refl) as (H1 & _ & H3 & _).
  split; [exact H1|exact H3].
Defined.

(** C5.  A full update is idempotent on both paths: sending the same PUT
    again gives the same answer and leaves the database as the first one
    left it.  After a PUT that passes validation, the detail view shows the
    row with exactly the written columns: slug, title and price after
    [product_update], and the description too after [ProductView.put]. *)
Theorem full_update_is_idempotent request request' pk db obj :
  find_product db pk = Some obj ->
  product_update request pk (snd (product_update request pk db))
  = product_update request pk db
  /\ ProductView.put request pk (snd (ProductView.put request pk db))
     = ProductView.put request pk db
  /\ (forall s t pr,
        d_slug (request_data request) = Parsed s ->
        d_title (request_data request) = Parsed t ->
        d_price (request_data request) = Parsed pr ->
        slug_taken db (Some pk) s = false ->
        fst (product_detail request' pk (snd (product_update request pk db)))
        = mk_response
            (Some (VObj [("id"%string, VInt pk);
                         ("categories"%string,
                          VList (map category_representation
                                     (categories_of db pk)));
                         ("slug"%string, VStr s);
                         ("title"%string, VStr t);
                         ("description"%string, VStr (Product.description obj));
                         ("price"%string, VInt pr)]))
            (Some status.HTTP_200_OK))
  /\ (forall s t de pr,
        d_slug (request_data request) = Parsed s ->
        d_title (request_data request) = Parsed t ->
        d_description (request_data request) = Parsed de ->
        d_price (request_data request) = Parsed pr ->
        slug_taken db (Some pk) s = false ->
        fst (product_detail request' pk (snd (ProductView.put request pk db)))
        = mk_response
            (Some (VObj [("id"%string, VInt pk);
                         ("categories"%string,
                          VList (map category_representation
                                     (categories_of db pk)));
                         ("slug"%string, VStr s);
                         ("title"%string, VStr t);
                         ("description"%string, VStr de);
                         ("price"%string, VInt pr)]))
            (Some status.HTTP_200_OK)).
Proof.
  intros Hf. split; [|split; [|split]].
  - apply (update_view_idempotent ProductCreateSerializer false None).
  - apply (update_view_idempotent ProductDetailSerializer false
                                  (Some status.HTTP_200_OK)).
  - intros s t pr Hs Ht Hp Hfree.
    rewrite (product_update_valid request pk db obj s t pr Hf Hs Ht Hp Hfree).
    cbn [snd]. rewrite detail_cases.
    erewrite after_update_find; [reflexivity|exact Hf|reflexivity].
  - intros s t de pr Hs Ht Hd Hp Hfree.
    rewrite (put_valid request pk db obj s t de pr Hf Hs Ht Hd Hp Hfree).
    cbn [snd]. rewrite detail_cases.
    erewrite after_update_find; [reflexivity|exact Hf|reflexivity].
Qed.

Lemma full_update_is_idempotent_witness :
  product_update chai_update 1 (snd (product_update chai_update 1 sample_db))
  = product_update chai_update 1 sample_db
  /\ ProductView.put chai_update 1 (snd (ProductView.put chai_update 1 sample_db))
     = ProductView.put chai_update 1 sample_db
  /\ fst (product_detail empty_request 1
            (snd (ProductView.put chai_update 1 sample_db)))
     = mk_response
         (Some (VObj [("id"%string, VInt 1);
                      ("categories"%string,
                       VList [VObj [("id"%string, VInt 1);
                                    ("name"%string, VStr "Drinks")]]);
                      ("slug"%string, VStr "chai");
                      ("title"%string, VStr "Chai");
                      ("description"%string, VStr "A spiced blend");
                      ("price"%string, VInt 500)]))
         (Some 200).
Proof.
  pose proof (full_update_is_idempotent chai_update empty_request 1 sample_db
                (Product.mk 1 "tea" "Green tea" "Loose leaf" 450) eq_refl)
    as (H1 & H2 & _ & H4).
  split; [exact H1|]. split; [exact H2|].
  exact (H4 "chai"%string "Chai"%string "A spiced blend"%string 500
            eq_refl eq_refl eq_refl eq_refl eq_refl).
Defined.




Lemma update_view_keeps_links c p st request pk db :
  (In f_categories (Meta_fields c) -> read_only c f_categories = true) ->
  product_categories (snd (handle (update_view c p st request pk) db))
  = product_categories db
  /\ Category_table (snd (handle (update_view c p st request pk) db))
     = Category_table db.
Proof.
  intros Hro. rewrite update_view_cases.
  destruct (find_product db pk) as [obj|]; [|split; reflexivity].
  pose proof (validated_categories_read_only c db (Some obj) p
                (request_data request) Hro) as Hc.
  destruct (run_validation c db (Some obj) p (request_data request))
    as [[|e errs] vd]; [|split; reflexivity].
  cbv zeta. simpl in Hc. rewrite Hc.
  destruct (slug_taken db _ _); split; reflexivity.
Qed.

Lemma categories_of_ext db db' pid :
  product_categories db' = product_categories db ->
  Category_table db' = Category_table db ->
  categories_of db' pid = categories_of db pid.
Proof. unfold categories_of. now intros -> ->. Qed.

(** The read-only declaration is what keeps the links: the same update
    through a serializer without it rewrites them. *)
Example writable_categories_are_written :
  categories_of sample_db 1 = [Category.mk 1 [("name"%string, VStr "Drinks")]]
  /\ categories_of
       (snd (handle (update_view writable_categories_serializer true None
                                 (only_categories []) 1) sample_db)) 1 = []
  /\ categories_of (snd (ProductView.patch (only_categories []) 1 sample_db)) 1
     = [Category.mk 1 [("name"%string, VStr "Drinks")]].
Proof. repeat split; reflexivity. Qed.

(** C7.  Through [ProductView.put] and [ProductView.patch] the categories
    of every product are the same after the request as before, and the
    [categories] entry of the body has no influence on the outcome. *)
Theorem class_updates_leave_categories request pk pid db :
  categories_of (snd (ProductView.put request pk db)) pid = categories_of db pid
  /\ categories_of (snd (ProductView.patch request pk db)) pid
     = categories_of db pid
  /\ (forall cs, ProductView.put (with_categories cs request) pk db
                 = ProductView.put request pk db)
  /\ (forall cs, ProductView.patch (with_categories cs request) pk db
                 = ProductView.patch request pk db).
Proof.
  assert (Hro : In f_categories (Meta_fields ProductDetailSerializer) ->
                read_only ProductDetailSerializer f_categories = true)
    by reflexivity.
  split; [|split; [|split]].
  - destruct (update_view_keeps_links ProductDetailSerializer false
                (Some status.HTTP_200_OK) request pk db Hro) as [H1 H2].
    now apply categories_of_ext.
  - destruct (update_view_keeps_links ProductDetailSerializer true
                (Some status.HTTP_200_OK) request pk db Hro) as [H1 H2].
    now apply categories_of_ext.
  - intros cs.
    change (ProductView.put (with_categories cs request) pk db)
      with (handle (update_view ProductDetailSerializer false
                      (Some status.HTTP_200_OK) (with_categories cs request) pk) db).
    change (ProductView.put request pk db)
      with (handle (update_view ProductDetailSerializer false
                      (Some status.HTTP_200_OK) request pk) db).
    rewrite !update_view_cases. reflexivity.
  - intros cs.
    change (ProductView.patch (with_categories cs request) pk db)
      with (handle (update_view ProductDetailSerializer true
                      (Some status.HTTP_200_OK) (with_categories cs request) pk) db).
    change (ProductView.patch request pk db)
      with (handle (update_view ProductDetailSerializer true
                      (Some status.HTTP_200_OK) request pk) db).
    rewrite !update_view_cases. reflexivity.
Qed.




(** The authors URL table at work. *)
Example resolve_list : resolve urlpatterns "" = Some (authors_list_view, []).
Proof. reflexivity. Qed.

Example resolve_detail :
  resolve urlpatterns "12/" = Some (author_detail_view, [("pk"%string, 12)]).
Proof. reflexivity. Qed.

Example resolve_nothing :
  resolve urlpatterns "12" = None /\ resolve urlpatterns "new/" = None.
Proof. split; reflexivity. Qed.


Lemma save_fresh u users :
  existsb (fun v => String.eqb (CustomUser.email v) (CustomUser.email u)) users
  = false <-> ~ In (CustomUser.email u) (CustomUser.emails users).
Proof.
  unfold CustomUser.emails. induction users as [|v users IH]; simpl.
  - split; [tauto|reflexivity].
  - rewrite orb_false_iff, IH. split.
    + intros [H1 H2] [H|H]; [|tauto].
      rewrite H, String.eqb_refl in H1. discriminate.
    + intros H. split; [|tauto].
      apply String.eqb_neq. tauto.
Qed.

(** C9.  A new [CustomUser] takes [is_active = True], [is_staff = False]
    and the current time as [date_joined] for whichever of these is not
    supplied, and the empty string for a name that is not supplied; the
    name columns accept the empty string.  The email is the username, and
    saving never puts two users with the same email in the table: a save
    with a stored email fails and leaves the table alone. *)
Theorem CustomUser_defaults_and_unique_email now kw users :
  NoDup (CustomUser.emails users) ->
  let u := CustomUser.new now kw in
  CustomUser.is_active u = or_default (CustomUser.kw_is_active kw) true
  /\ CustomUser.is_staff u = or_default (CustomUser.kw_is_staff kw) false
  /\ CustomUser.date_joined u = or_default (CustomUser.kw_date_joined kw) now
  /\ CustomUser.first_name u
     = or_default (CustomUser.kw_first_name kw) EmptyString
  /\ CustomUser.last_name u
     = or_default (CustomUser.kw_last_name kw) EmptyString
  /\ CustomUser.clean_char_field CustomUser.first_name_field EmptyString = None
  /\ CustomUser.clean_char_field CustomUser.last_name_field EmptyString = None
  /\ CustomUser.USERNAME_FIELD = "email"%string
  /\ CustomUser.get_username u = CustomUser.email u
  /\ CustomUser.unique CustomUser.email_field = true
  /\ NoDup (CustomUser.emails (CustomUser.saved u users))
  /\ (In (CustomUser.email u) (CustomUser.emails users) ->
      CustomUser.save u users = inl IntegrityError
      /\ CustomUser.saved u users = users)
  /\ (~ In (CustomUser.email u) (CustomUser.emails users) ->
      CustomUser.save u users = inr (users ++ [u])).
Proof.
  intros Hnd u. repeat (split; [reflexivity|]).
  unfold CustomUser.saved, CustomUser.save.
  destruct (existsb _ users) eqn:E.
  - split; [exact Hnd|]. split; [auto|].
    intros H. apply save_fresh in H. congruence.
  - apply save_fresh in E. split; [|split; [contradiction|reflexivity]].
    unfold CustomUser.emails in *. rewrite map_app. simpl.
    apply NoDup_app; [exact Hnd|repeat constructor; auto|].
    intros a Ha [<-|[]]. contradiction.
Qed.

Lemma CustomUser_defaults_and_unique_email_witness :
  CustomUser.new 500 (only_email "nino@example.com")
  = CustomUser.mk "nino@example.com" "" "" true false 500
  /\ CustomUser.save (CustomUser.new 500 (only_email "nino@example.com"))
                     sample_users
     = inr (sample_users
            ++ [CustomUser.mk "nino@example.com" "" "" true false 500])
  /\ CustomUser.save (CustomUser.new 500 (only_email "ana@example.com"))
                     sample_users
     = inl IntegrityError.
Proof.
  assert (Hnd : NoDup (CustomUser.emails sample_users)).
  { simpl. repeat constructor. simpl. tauto. }
  split; [reflexivity|]. split.
  - pose proof (CustomUser_defaults_and_unique_email 500
                  (only_email "nino@example.com") sample_users Hnd) as H.
    cbv zeta in H. decompose [and] H.
    match goal with H : ~ In _ _ -> _ |- _ => apply H end.
    simpl. intros [H'|[]]. discriminate H'.
  - reflexivity.
Defined.

(** * The URL tables *)

(** Reading back a number written in decimal. *)

Lemma read_digits_pos d rest :
  (forall a k, read_digits rest a k = (a, k, rest)) ->
  forall p c,
  read_digits (DecimalString.NilEmpty.string_of_uint d ++ rest) (Z.pos p) c
  = (Z.pos (Pos.of_uint_acc d p), (c + Decimal.nb_digits d)%nat, rest).
Proof.
  intros Hrest. induction d; intros p c;
    cbn [DecimalString.NilEmpty.string_of_uint String.append read_digits
         Decimal.nb_digits Pos.of_uint_acc];
    try (rewrite Hrest; now rewrite Nat.add_0_r);
    match goal with
    | |- context [digit_of ?ch] =>
        let v := eval vm_compute in (digit_of ch) in
        change (digit_of ch) with v; cbv iota beta
    end;
    match goal with
    | |- read_digits _ ?acc _ = (Z.pos (Pos.of_uint_acc _ ?q), _, _) =>
        replace acc with (Z.pos q) by lia
    end;
    rewrite IHd; now rewrite Nat.add_succ_r.
Qed.

Lemma read_digits_uint d rest :
  (forall a k, read_digits rest a k = (a, k, rest)) ->
  forall c,
  read_digits (DecimalString.NilEmpty.string_of_uint d ++ rest) 0 c
  = (Z.of_N (Pos.of_uint d), (c + Decimal.nb_digits d)%nat, rest).
Proof.
  intros Hrest. induction d; intros c;
    cbn [DecimalString.NilEmpty.string_of_uint String.append read_digits
         Decimal.nb_digits Pos.of_uint];
    try (rewrite Hrest; now rewrite Nat.add_0_r);
    match goal with
    | |- context [digit_of ?ch] =>
        let v := eval vm_compute in (digit_of ch) in
        change (digit_of ch) with v; cbv iota beta
    end.
  - change (10 * 0 + 0) with 0. rewrite IHd. now rewrite Nat.add_succ_r.
  - change (10 * 0 + 1) with (Z.pos 1). rewrite read_digits_pos by exact Hrest.
    now rewrite Nat.add_succ_r.
  - change (10 * 0 + 2) with (Z.pos 2). rewrite read_digits_pos by exact Hrest.
    now rewrite Nat.add_succ_r.
  - change (10 * 0 + 3) with (Z.pos 3). rewrite read_digits_pos by exact Hrest.
    now rewrite Nat.add_succ_r.
  - change (10 * 0 + 4) with (Z.pos 4). rewrite read_digits_pos by exact Hrest.
    now rewrite Nat.add_succ_r.
  - change (10 * 0 + 5) with (Z.pos 5). rewrite read_digits_pos by exact Hrest.
    now rewrite Nat.add_succ_r.
  - change (10 * 0 + 6) with (Z.pos 6). rewrite read_digits_pos by exact Hrest.
    now rewrite Nat.add_succ_r.
  - change (10 * 0 + 7) with (Z.pos 7). rewrite read_digits_pos by exact Hrest.
    now rewrite Nat.add_succ_r.
  - change (10 * 0 + 8) with (Z.pos 8). rewrite read_digits_pos by exact Hrest.
    now rewrite Nat.add_succ_r.
  - change (10 * 0 + 9) with (Z.pos 9). rewrite read_digits_pos by exact Hrest.
    now rewrite Nat.add_succ_r.
Qed.

Lemma to_uint_digits n : exists k, Decimal.nb_digits (N.to_uint n) = S k.
Proof.
  destruct n as [|p]; [now exists O|]. simpl.
  pose proof (DecimalPos.Unsigned.to_uint_nonnil p) as H.
  destruct (Pos.to_uint p); [contradiction|..]; simpl; eauto.
Qed.

Lemma read_digits_decimal n rest :
  0 <= n ->
  (forall a k, read_digits rest a k = (a, k, rest)) ->
  exists k, read_digits (decimal n ++ rest) 0 O = (n, S k, rest).
Proof.
  intros Hn Hrest. unfold decimal.
  destruct (to_uint_digits (Z.to_N n)) as [k Hk]. exists k.
  rewrite read_digits_uint by exact Hrest.
  change (Pos.of_uint (N.to_uint (Z.to_N n)))
    with (N.of_uint (N.to_uint (Z.to_N n))).
  rewrite DecimalN.Unsigned.of_to, Hk, Z2N.id by exact Hn. reflexivity.
Qed.

Lemma slash_ends_digits r a k :
  read_digits ("/" ++ r)%string a k = (a, k, ("/" ++ r)%string).
Proof. reflexivity. Qed.

Lemma nothing_ends_digits a k : read_digits EmptyString a k = (a, k, EmptyString).
Proof. reflexivity. Qed.

Lemma append_empty (s : string) : (s ++ "")%string = s.
Proof. induction s as [|c s IH]; simpl; [reflexivity|now rewrite IH]. Qed.

Lemma decimal_nonempty n : exists c s, decimal n = String c s.
Proof.
  unfold decimal. destruct (to_uint_digits (Z.to_N n)) as [k Hk].
  destruct (N.to_uint (Z.to_N n)); simpl in *; try discriminate; eauto.
Qed.

Lemma match_int_slash nm n :
  0 <= n ->
  match_route [int_param nm; literal "/"] (decimal n ++ "/")%string
  = Some [(nm, n)].
Proof.
  intros Hn. cbn [match_route].
  destruct (read_digits_decimal n "/"%string Hn (slash_ends_digits EmptyString))
    as [k ->].
  reflexivity.
Qed.

Lemma match_int_end nm n :
  0 <= n -> match_route [int_param nm] (decimal n) = Some [(nm, n)].
Proof.
  intros Hn. cbn [match_route].
  destruct (read_digits_decimal n EmptyString Hn nothing_ends_digits) as [k Hk].
  rewrite append_empty in Hk. rewrite Hk. reflexivity.
Qed.

Lemma match_int_end_slash nm n :
  0 <= n -> match_route [int_param nm] (decimal n ++ "/")%string = None.
Proof.
  intros Hn. cbn [match_route].
  destruct (read_digits_decimal n "/"%string Hn (slash_ends_digits EmptyString))
    as [k ->].
  reflexivity.
Qed.

Lemma match_int_slash_end nm n :
  0 <= n -> match_route [int_param nm; literal "/"] (decimal n) = None.
Proof.
  intros Hn. cbn [match_route].
  destruct (read_digits_decimal n EmptyString Hn nothing_ends_digits) as [k Hk].
  rewrite append_empty in Hk. rewrite Hk. reflexivity.
Qed.

Lemma match_end_decimal n rest :
  match_route [] (decimal n ++ rest)%string = None.
Proof. destruct (decimal_nonempty n) as (c & s & ->). reflexivity. Qed.

Lemma match_route_literal l r s :
  match_route (literal l :: r) s
  = match strip_prefix l s with
    | Some s' => match_route r s'
    | None => None
    end.
Proof. reflexivity. Qed.

Lemma match_route_end : match_route [] EmptyString = Some [].
Proof. reflexivity. Qed.

Lemma match_route_more c s : match_route [] (String c s) = None.
Proof. reflexivity. Qed.

Lemma match_int_nothing nm r : match_route (int_param nm :: r) EmptyString = None.
Proof. reflexivity. Qed.

Lemma match_end_decimal_only n : match_route [] (decimal n) = None.
Proof. destruct (decimal_nonempty n) as (c & s & ->). reflexivity. Qed.

Ltac route :=
  try unfold http;
  cbn [resolve_product product_urlpatterns product_route routed_view];
  repeat (rewrite match_route_literal;
          cbn [strip_prefix String.append Ascii.eqb Bool.eqb];
          rewrite ?match_end_decimal, ?match_end_decimal_only,
            ?match_route_end, ?match_route_more, ?match_int_nothing;
          rewrite ?match_int_slash, ?match_int_end, ?match_int_end_slash,
            ?match_int_slash_end by assumption;
          cbv iota beta).


(** What a match binds: the parameters of the route, to numbers read from
    digits. *)

Lemma digit_of_range c d : digit_of c = Some d -> 0 <= d <= 9.
Proof.
  unfold digit_of.
  destruct ((48 <=? Z.of_nat (Ascii.nat_of_ascii c))
            && (Z.of_nat (Ascii.nat_of_ascii c) <=? 57)) eqn:E; [|discriminate].
  intros H. injection H as <-. apply andb_true_iff in E. lia.
Qed.

Lemma read_digits_nonneg s : forall acc c v c' s',
  read_digits s acc c = (v, c', s') -> 0 <= acc -> 0 <= v.
Proof.
  induction s as [|ch s IH]; intros acc c v c' s' H Hacc; cbn [read_digits] in H.
  - injection H as <- _ _. exact Hacc.
  - destruct (digit_of ch) as [d|] eqn:E.
    + apply digit_of_range in E. apply IH in H; lia.
    + injection H as <- _ _. exact Hacc.
Qed.

Lemma match_route_binds r : forall s kw,
  match_route r s = Some kw ->
  map fst kw = route_params r /\ Forall (fun kv => 0 <= snd kv) kw.
Proof.
  induction r as [|[l|nm] r IH]; intros s kw H; simpl in H.
  - destruct s; [|discriminate]. injection H as <-. split; constructor.
  - destruct (strip_prefix l s) as [s'|]; [|discriminate]. now apply IH in H.
  - destruct (read_digits s 0 O) as [[v c] s'] eqn:E.
    destruct c as [|c]; [discriminate|].
    destruct (match_route r s') as [kw'|] eqn:E'; [|discriminate].
    injection H as <-. apply IH in E'. destruct E' as [E1 E2]. simpl. split.
    + now rewrite E1.
    + constructor; [|exact E2]. simpl.
      eapply read_digits_nonneg; [exact E|lia].
Qed.

Lemma resolve_product_pattern ps s v kw :
  resolve_product ps s = Some (v, kw) ->
  exists p, In p ps /\ routed_view p = v
            /\ match_route (product_route p) s = Some kw.
Proof.
  induction ps as [|p ps IH]; simpl; [discriminate|].
  destruct (match_route (product_route p) s) as [kw'|] eqn:E.
  - intros H. injection H as <- <-. exists p. auto.
  - intros H. destruct (IH H) as (q & Hq & Hv & Hm). exists q. auto.
Qed.

Lemma kwarg_pk_none : kwarg "pk" [] = None.
Proof. reflexivity. Qed.

Lemma binds_nothing (kw : list (string * Z)) : map fst kw = [] -> kw = [].
Proof. destruct kw; [reflexivity|discriminate]. Qed.

Lemma binds_pk (kw : list (string * Z)) :
  map fst kw = ["pk"%string] -> Forall (fun kv => 0 <= snd kv) kw ->
  exists n, 0 <= n /\ kw = [("pk"%string, n)].
Proof.
  destruct kw as [|[k n] [|x kw]]; try discriminate. simpl.
  intros H Hall. injection H as ->. inversion Hall; subst. simpl in *. eauto.
Qed.

(** The keyword arguments each view of the product table is called with. *)
Lemma resolve_product_kwargs s v kw :
  resolve_product product_urlpatterns s = Some (v, kw) ->
  match v with
  | view_product_list | view_product_create => kw = []
  | view_ProductView => kw = [] \/ exists n, 0 <= n /\ kw = [("pk"%string, n)]
  | _ => exists n, 0 <= n /\ kw = [("pk"%string, n)]
  end.
Proof.
  intros H. apply resolve_product_pattern in H.
  destruct H as (p & Hin & <- & Hm). apply match_route_binds in Hm.
  destruct Hm as [Hn Hv].
  simpl in Hin.
  repeat (destruct Hin as [<-|Hin];
          [simpl in *;
           first [now apply binds_nothing
                 |now apply binds_pk
                 |left; now apply binds_nothing
                 |right; now apply binds_pk]|]).
  destruct Hin.
Qed.

(** An HTTP request is one call of a routed view, or it is turned away
    without touching the database. *)
Lemma http_cases m s request db :
  (exists e, http m s request db = serve e request db
             /\ forall pk, target e = Some pk -> 0 <= pk)
  \/ http m s request db = (page_not_found, db)
  \/ http m s request db = (method_not_allowed m, db)
  \/ (http m s request db = (server_error, db)
      /\ exists kw, resolve_product product_urlpatterns s
                    = Some (view_ProductView, kw)
                    /\ signature_mismatch m (kwarg "pk" kw) = true).
Proof.
  unfold http.
  destruct (resolve_product product_urlpatterns s) as [[v kw]|] eqn:E; [|auto].
  pose proof (resolve_product_kwargs s v kw E) as Hkw.
  assert (Hserve : forall e, (forall pk, target e = Some pk -> 0 <= pk) ->
            call_view v m (kwarg "pk" kw) request db = serve e request db ->
            exists e, call_view v m (kwarg "pk" kw) request db = serve e request db
                      /\ forall pk, target e = Some pk -> 0 <= pk)
    by (intros e He Hc; exists e; auto).
  destruct v.
  - subst kw. destruct m; auto. left.
    apply (Hserve ep_product_list); [discriminate|reflexivity].
  - destruct Hkw as (n & Hn & ->). destruct m; auto. left.
    apply (Hserve (ep_product_detail n)); [|reflexivity].
    intros pk H. injection H as <-. exact Hn.
  - subst kw. destruct m; auto. left.
    apply (Hserve ep_product_create); [discriminate|reflexivity].
  - destruct Hkw as (n & Hn & ->). destruct m; auto. left.
    apply (Hserve (ep_product_update n)); [|reflexivity].
    intros pk H. injection H as <-. exact Hn.
  - destruct Hkw as (n & Hn & ->). destruct m; auto. left.
    apply (Hserve (ep_product_partial_update n)); [|reflexivity].
    intros pk H. injection H as <-. exact Hn.
  - destruct Hkw as (n & Hn & ->). destruct m; auto. left.
    apply (Hserve (ep_product_delete n)); [|reflexivity].
    intros pk H. injection H as <-. exact Hn.
  - destruct Hkw as [->|(n & Hn & ->)]; destruct m.
    + left. apply (Hserve (ep_class_get None)); [discriminate|reflexivity].
    + left. apply (Hserve ep_class_post); [discriminate|reflexivity].
    + right. right. right. split; [reflexivity|]. exists []. auto.
    + right. right. right. split; [reflexivity|]. exists []. auto.
    + right. right. right. split; [reflexivity|]. exists []. auto.
    + left. apply (Hserve (ep_class_get (Some n))); [|reflexivity].
      intros pk H. injection H as <-. exact Hn.
    + right. right. right. split; [reflexivity|].
      exists [("pk"%string, n)]. auto.
    + left. apply (Hserve (ep_class_put n)); [|reflexivity].
      intros pk H. injection H as <-. exact Hn.
    + left. apply (Hserve (ep_class_patch n)); [|reflexivity].
      intros pk H. injection H as <-. exact Hn.
    + left. apply (Hserve (ep_class_delete n)); [|reflexivity].
      intros pk H. injection H as <-. exact Hn.
Qed.

(** * Further properties *)

(** X1.  Each entry of the product URL table leads to the view it names:
    with the primary key written in decimal, the six function routes and
    the two class routes call exactly the view, or the method of
    [ProductView], that the table and the request method select. *)
Theorem product_routes_reach_their_views n request db :
  0 <= n ->
  http GET "products/" request db = product_list request db
  /\ http GET ("products/" ++ decimal n ++ "/")%string request db
     = product_detail request n db
  /\ http POST "create/" request db = product_create request db
  /\ http PUT ("update/" ++ decimal n ++ "/")%string request db
     = product_update request n db
  /\ http PATCH ("partial_update/" ++ decimal n ++ "/")%string request db
     = product_partial_update request n db
  /\ http DELETE ("delete/" ++ decimal n)%string request db
     = product_delete request n db
  /\ http GET "class_products/" request db = ProductView.get request None db
  /\ http POST "class_products/" request db = ProductView.post request db
  /\ http GET ("class_products/" ++ decimal n ++ "/")%string request db
     = ProductView.get request (Some n) db
  /\ http PUT ("class_products/" ++ decimal n ++ "/")%string request db
     = ProductView.put request n db
  /\ http PATCH ("class_products/" ++ decimal n ++ "/")%string request db
     = ProductView.patch request n db
  /\ http DELETE ("class_products/" ++ decimal n ++ "/")%string request db
     = ProductView.delete request n db.
Proof. intros Hn. repeat split; route; reflexivity. Qed.

Lemma product_routes_reach_their_views_witness :
  http PUT "update/12/" chai_update sample_db
  = product_update chai_update 12 sample_db
  /\ http DELETE "delete/12" empty_request sample_db
     = product_delete empty_request 12 sample_db.
Proof.
  assert (H : 0 <= 12) by lia.
  pose proof (product_routes_reach_their_views 12 chai_update sample_db H)
    as (_ & _ & _ & H4 & _).
  pose proof (product_routes_reach_their_views 12 empty_request sample_db H)
    as (_ & _ & _ & _ & _ & H6 & _).
  split; [exact H4|exact H6].
Defined.

(** X2.  The delete route is written without a trailing slash and every
    other route with one, and the table has no second spelling: a delete
    path with the slash, or any other path without it, matches no pattern. *)
Theorem routes_need_their_exact_slash n :
  0 <= n ->
  resolve_product product_urlpatterns ("delete/" ++ decimal n)%string
  = Some (view_product_delete, [("pk"%string, n)])
  /\ resolve_product product_urlpatterns ("delete/" ++ decimal n ++ "/")%string
     = None
  /\ resolve_product product_urlpatterns ("products/" ++ decimal n)%string = None
  /\ resolve_product product_urlpatterns ("update/" ++ decimal n)%string = None
  /\ resolve_product product_urlpatterns ("partial_update/" ++ decimal n)%string
     = None
  /\ resolve_product product_urlpatterns ("class_products/" ++ decimal n)%string
     = None
  /\ resolve_product product_urlpatterns "products" = None
  /\ resolve_product product_urlpatterns "create" = None
  /\ resolve_product product_urlpatterns "class_products" = None.
Proof. intros Hn. repeat split; route; reflexivity. Qed.

Lemma routes_need_their_exact_slash_witness :
  resolve_product product_urlpatterns "delete/41/" = None
  /\ resolve_product product_urlpatterns "delete/41"
     = Some (view_product_delete, [("pk"%string, 41)])
  /\ resolve_product product_urlpatterns "update/41" = None.
Proof.
  assert (H : 0 <= 41) by lia.
  pose proof (routes_need_their_exact_slash 41 H) as (H1 & H2 & _ & H4 & _).
  split; [exact H2|]. split; [exact H1|exact H4].
Defined.

(** X3.  A GET never writes: whatever the path and the body, the database
    after the request is the database before it. *)
Theorem get_never_writes s request db : snd (http GET s request db) = db.
Proof.
  destruct (http_cases GET s request db)
    as [(e & He & _)|[H|[H|[H _]]]]; try (now rewrite H).
  unfold http in *.
  destruct (resolve_product product_urlpatterns s) as [[v kw]|]; [|reflexivity].
  unfold call_view in *.
  destruct v; cbn [api_view_methods existsb http_method_eqb orb negb];
    try reflexivity.
  - destruct (kwarg "pk" kw); reflexivity.
  - destruct (kwarg "pk" kw) as [pk|]; [|reflexivity].
    apply product_detail_store.
  - destruct (kwarg "pk" kw) as [pk|]; [|reflexivity].
    change (ProductView.get request (Some pk) db)
      with (product_detail request pk db).
    apply product_detail_store.
Qed.

(** X4.  Among GET, POST, PUT, PATCH and DELETE, each function route takes
    the one method its decorator lists: each of the other four is answered
    405, with a detail that names the method asked, and nothing is
    written. *)
Theorem function_routes_accept_one_method n m request db :
  0 <= n ->
  (m <> GET ->
   http m "products/" request db = (method_not_allowed m, db)
   /\ http m ("products/" ++ decimal n ++ "/")%string request db
      = (method_not_allowed m, db))
  /\ (m <> POST -> http m "create/" request db = (method_not_allowed m, db))
  /\ (m <> PUT ->
      http m ("update/" ++ decimal n ++ "/")%string request db
      = (method_not_allowed m, db))
  /\ (m <> PATCH ->
      http m ("partial_update/" ++ decimal n ++ "/")%string request db
      = (method_not_allowed m, db))
  /\ (m <> DELETE ->
      http m ("delete/" ++ decimal n)%string request db
      = (method_not_allowed m, db))
  /\ status_code (method_not_allowed m) = 405
  /\ data (method_not_allowed m)
     = Some (VObj [("detail"%string,
                    VStr ("Method " ++ quote ++ method_name m ++ quote
                          ++ " not allowed.")%string)]).
Proof.
  intros Hn. split; [|split; [|split; [|split; [|split; [|split]]]]];
    try reflexivity; intros Hm.
  - split; route; destruct m; try reflexivity; contradiction.
  - route; destruct m; try reflexivity; contradiction.
  - route; destruct m; try reflexivity; contradiction.
  - route; destruct m; try reflexivity; contradiction.
  - route; destruct m; try reflexivity; contradiction.
Qed.

Lemma function_routes_accept_one_method_witness :
  http DELETE "update/2/" empty_request sample_db
  = (mk_response
       (Some (VObj [("detail"%string,
                     VStr ("Method " ++ quote ++ "DELETE" ++ quote
                           ++ " not allowed.")%string)]))
       (Some 405), sample_db)
  /\ status_code (fst (http POST "products/2/" new_cup sample_db)) = 405.
Proof.
  assert (H : 0 <= 2) by lia.
  pose proof (function_routes_accept_one_method 2 DELETE empty_request
                sample_db H) as (_ & _ & H3 & _).
  pose proof (function_routes_accept_one_method 2 POST new_cup sample_db H)
    as (H1 & _).
  split.
  - apply H3. discriminate.
  - assert (Hne : POST <> GET) by discriminate.
    destruct (H1 Hne) as [_ H2].
    exact (f_equal (fun r => status_code (fst r)) H2).
Defined.

(** X5.  [ProductView] is routed with and without a primary key, but its
    methods are not: [put], [patch] and [delete] cannot be called on the
    route without one, nor [post] on the route with one.  Such a request
    ends in a server error and writes nothing. *)
Theorem class_route_signature_errors n request db :
  0 <= n ->
  http PUT "class_products/" request db = (server_error, db)
  /\ http PATCH "class_products/" request db = (server_error, db)
  /\ http DELETE "class_products/" request db = (server_error, db)
  /\ http POST ("class_products/" ++ decimal n ++ "/")%string request db
     = (server_error, db)
  /\ status_code server_error = status.HTTP_500_INTERNAL_SERVER_ERROR.
Proof. intros Hn. repeat split; route; reflexivity. Qed.

Lemma class_route_signature_errors_witness :
  http POST "class_products/2/" new_cup sample_db = (server_error, sample_db)
  /\ http DELETE "class_products/" empty_request sample_db
     = (server_error, sample_db).
Proof.
  assert (H : 0 <= 2) by lia.
  pose proof (class_route_signature_errors 2 new_cup sample_db H)
    as (_ & _ & _ & H4 & _).
  pose proof (class_route_signature_errors 2 empty_request sample_db H)
    as (_ & _ & H3 & _).
  split; [exact H4|exact H3].
Defined.

Lemma http_keeps_store_ok m s request db :
  store_ok db -> store_ok (snd (http m s request db)).
Proof.
  intros Hok.
  destruct (http_cases m s request db)
    as [(e & -> & _)|[->|[->|[-> _]]]]; auto.
  eapply statement_ok; [exact Hok|apply serve_statement].
Qed.

(** X6.  On a well-formed database a request for a path of the URL table
    ends in a server error exactly when it calls [ProductView] with keyword
    arguments that do not fit the method: a write that passed [is_valid]
    is never refused by the constraints of the table. *)
Theorem server_error_means_signature_mismatch m s request db v kw :
  store_ok db ->
  resolve_product product_urlpatterns s = Some (v, kw) ->
  status_code (fst (http m s request db))
  = status.HTTP_500_INTERNAL_SERVER_ERROR
  <-> v = view_ProductView /\ signature_mismatch m (kwarg "pk" kw) = true.
Proof.
  intros Hok Hres. split.
  - destruct (http_cases m s request db)
      as [(e & -> & _)|[->|[->|[-> Hmis]]]]; cbn [fst snd].
    + pose proof (serve_answered e request db Hok) as Ha. unfold answered in Ha.
      intros H. rewrite H in Ha. simpl in Ha.
      destruct Ha as [Ha|[Ha|[Ha|[Ha|[Ha|[]]]]]]; discriminate Ha.
    + discriminate.
    + discriminate.
    + intros _. destruct Hmis as (kw' & Hres' & Hm). rewrite Hres in Hres'.
      injection Hres' as -> ->. auto.
  - intros [-> Hm]. unfold http. rewrite Hres. unfold call_view.
    destruct m, (kwarg "pk" kw); try discriminate Hm; reflexivity.
Qed.

Lemma server_error_means_signature_mismatch_witness :
  status_code (fst (http PUT "update/1/" chai_update sample_db)) <> 500
  /\ status_code (fst (http POST "class_products/1/" new_cup sample_db)) = 500.
Proof.
  split.
  - intros H.
    destruct (proj1 (server_error_means_signature_mismatch PUT "update/1/"
                       chai_update sample_db view_product_update
                       [("pk"%string, 1)] sample_db_ok eq_refl) H) as [Hv _].
    discriminate Hv.
  - apply (proj2 (server_error_means_signature_mismatch POST "class_products/1/"
                    new_cup sample_db view_ProductView [("pk"%string, 1)]
                    sample_db_ok eq_refl)).
    split; reflexivity.
Defined.

Lemma http_all_ok calls : forall db, store_ok db -> store_ok (http_all calls db).
Proof.
  induction calls as [|[[m s] request] rest IH]; intros db Hok; simpl; auto.
  apply IH. now apply http_keeps_store_ok.
Qed.

(** X7.  Starting from the empty database, after any history of HTTP
    requests the stored products have pairwise distinct ids and pairwise
    distinct slugs, and every id is below the next one to be generated. *)
Theorem http_history_keeps_store_ok calls :
  let db := http_all calls empty_store in
  NoDup (product_ids db) /\ NoDup (product_slugs db)
  /\ Forall (fun i => i < Product_seq db) (product_ids db).
Proof.
  intros db. destruct (http_all_ok calls empty_store store_ok_empty)
    as [H1 H2 H3].
  auto.
Qed.

(** Partial validation, and updates seen from the other rows. *)

Lemma validate_partial_create_pass db inst d :
  malformed (d_slug d) = false -> malformed (d_title d) = false ->
  malformed (d_price d) = false ->
  (forall s, d_slug d = Parsed s ->
             slug_taken db (option_map Product.id inst) s = false) ->
  run_validation ProductCreateSerializer db inst true d
  = ([], mkValidated (supplied (d_slug d)) (supplied (d_title d)) None
                     (supplied (d_price d)) None).
Proof.
  intros Hs Ht Hp Hfree. unfold_validation.
  destruct (d_slug d) as [| |s]; try discriminate Hs;
    destruct (d_title d) as [| |t]; try discriminate Ht;
    destruct (d_price d) as [| |pr]; try discriminate Hp;
    step_validation; try rewrite (Hfree s eq_refl); reflexivity.
Qed.

Lemma validate_partial_detail_pass db inst d :
  malformed (d_slug d) = false -> malformed (d_title d) = false ->
  malformed (d_description d) = false -> malformed (d_price d) = false ->
  (forall s, d_slug d = Parsed s ->
             slug_taken db (option_map Product.id inst) s = false) ->
  run_validation ProductDetailSerializer db inst true d
  = ([], mkValidated (supplied (d_slug d)) (supplied (d_title d))
                     (supplied (d_description d)) (supplied (d_price d)) None).
Proof.
  intros Hs Ht Hd Hp Hfree. unfold_validation.
  destruct (d_slug d) as [| |s]; try discriminate Hs;
    destruct (d_title d) as [| |t]; try discriminate Ht;
    destruct (d_description d) as [| |de]; try discriminate Hd;
    destruct (d_price d) as [| |pr]; try discriminate Hp;
    step_validation; try rewrite (Hfree s eq_refl); reflexivity.
Qed.

Lemma after_update_find_other db obj cats other :
  other <> Product.id obj ->
  find_product (after_update db obj cats) other = find_product db other.
Proof.
  intros Hne. unfold find_product, after_update. simpl. rewrite replace_find.
  destruct (find _ (Product_table db)) as [p|] eqn:E; [|reflexivity].
  apply find_some in E. destruct E as [_ E]. apply Z.eqb_eq in E.
  simpl. unfold replace_row.
  destruct (Z.eqb_spec (Product.id p) (Product.id obj)); [congruence|reflexivity].
Qed.

Lemma replace_self t pk obj :
  NoDup (map Product.id t) ->
  find (fun p => Product.id p =? pk) t = Some obj ->
  map (replace_row obj) t = t.
Proof.
  induction t as [|p t IH]; simpl; [reflexivity|]. intros Hnd Hf.
  inversion Hnd as [|? ? Hnot Hrest]; subst.
  destruct (Z.eqb_spec (Product.id p) pk) as [E|E].
  - injection Hf as <-. unfold replace_row at 1. rewrite Z.eqb_refl.
    now rewrite replace_absent.
  - pose proof (find_some _ _ Hf) as [_ Hid]. apply Z.eqb_eq in Hid.
    rewrite (IH Hrest Hf). unfold replace_row.
    destruct (Z.eqb_spec (Product.id p) (Product.id obj)); [congruence|reflexivity].
Qed.

Lemma after_update_self db pk obj :
  store_ok db -> find_product db pk = Some obj -> after_update db obj None = db.
Proof.
  intros [_ Hnd _] Hf. unfold after_update, find_product, product_ids in *.
  simpl. rewrite (replace_self _ pk obj Hnd Hf). now destruct db.
Qed.

Lemma assign_nothing obj :
  assign obj (mkValidated None None None None None) = obj.
Proof. now destruct obj. Qed.

Lemma update_view_valid c p st request pk db obj vd :
  find_product db pk = Some obj ->
  run_validation c db (Some obj) p (request_data request) = ([], vd) ->
  slug_taken db (Some pk) (Product.slug (assign obj vd)) = false ->
  handle (update_view c p st request pk) db
  = (mk_response
       (Some (to_representation c
                (after_update db (assign obj vd) (v_categories vd))
                (assign obj vd))) st,
     after_update db (assign obj vd) (v_categories vd)).
Proof.
  intros Hf Hv Hfree. pose proof (find_product_id _ _ _ Hf) as Hid.
  rewrite update_view_cases, Hf, Hv. cbv zeta.
  rewrite assign_id, Hid, Hfree. reflexivity.
Qed.

Lemma supplied_slug_free db pk obj (i : input string) :
  store_ok db -> find_product db pk = Some obj ->
  (forall s, i = Parsed s -> slug_taken db (Some pk) s = false) ->
  slug_taken db (Some pk) (or_default (supplied i) (Product.slug obj)) = false.
Proof.
  intros Hok Hf Hfree. pose proof (find_product_id _ _ _ Hf) as Hid.
  destruct i as [| |s]; simpl; try (rewrite <- Hid; eapply own_slug_not_taken; eauto).
  now apply Hfree.
Qed.

(** X8.  A partial update through [product_partial_update] that passes
    validation writes the slug, title and price the body supplies and
    keeps the stored value of each one it does not; the description, every
    other row and the category links are untouched. *)
Theorem partial_update_writes_what_is_sent request pk db obj :
  store_ok db ->
  find_product db pk = Some obj ->
  malformed (d_slug (request_data request)) = false ->
  malformed (d_title (request_data request)) = false ->
  malformed (d_price (request_data request)) = false ->
  (forall s, d_slug (request_data request) = Parsed s ->
             slug_taken db (Some pk) s = false) ->
  let d := request_data request in
  let obj' :=
    Product.mk pk (or_default (supplied (d_slug d)) (Product.slug obj))
               (or_default (supplied (d_title d)) (Product.title obj))
               (Product.description obj)
               (or_default (supplied (d_price d)) (Product.price obj)) in
  let after := snd (product_partial_update request pk db) in
  fst (product_partial_update request pk db)
  = mk_response
      (Some (VObj [("id"%string, VInt pk);
                   ("slug"%string, VStr (Product.slug obj'));
                   ("title"%string, VStr (Product.title obj'));
                   ("price"%string, VInt (Product.price obj'))]))
      (Some status.HTTP_200_OK)
  /\ find_product after pk = Some obj'
  /\ (forall other, other <> pk ->
        find_product after other = find_product db other)
  /\ product_categories after = product_categories db.
Proof.
  intros Hok Hf Hs Ht Hp Hfree d obj' after.
  pose proof (find_product_id _ _ _ Hf) as Hid.
  assert (Hv : run_validation ProductCreateSerializer db (Some obj) true d
               = ([], mkValidated (supplied (d_slug d)) (supplied (d_title d))
                                  None (supplied (d_price d)) None)).
  { apply validate_partial_create_pass; auto. simpl. now rewrite Hid. }
  assert (Ha : assign obj (mkValidated (supplied (d_slug d))
                             (supplied (d_title d)) None
                             (supplied (d_price d)) None) = obj').
  { unfold assign, obj'. simpl. now rewrite Hid. }
  assert (E : product_partial_update request pk db
              = (mk_response (Some (to_representation ProductCreateSerializer
                                      (after_update db obj' None) obj')) None,
                 after_update db obj' None)).
  { change (product_partial_update request pk db)
      with (handle (update_view ProductCreateSerializer true None request pk) db).
    rewrite (update_view_valid _ _ _ _ _ _ obj _ Hf Hv); rewrite Ha.
    - reflexivity.
    - unfold obj'. cbn [Product.slug]. now apply supplied_slug_free. }
  unfold after. rewrite E. cbn [fst snd]. split; [reflexivity|].
  split; [eapply after_update_find; [exact Hf|reflexivity]|].
  split; [|reflexivity].
  intros other Hne. now apply after_update_find_other.
Qed.

Lemma partial_update_writes_what_is_sent_witness :
  find_product (snd (product_partial_update sample_patch 1 sample_db)) 1
  = Some (Product.mk 1 "tea" "Sencha" "Loose leaf" 450)
  /\ find_product (snd (product_partial_update sample_patch 1 sample_db)) 2
     = find_product sample_db 2.
Proof.
  assert (Hfree : forall s, d_slug (request_data sample_patch) = Parsed s ->
                            slug_taken sample_db (Some 1) s = false)
    by (intros s H; discriminate H).
  pose proof (partial_update_writes_what_is_sent sample_patch 1 sample_db
                (Product.mk 1 "tea" "Green tea" "Loose leaf" 450)
                sample_db_ok eq_refl eq_refl eq_refl eq_refl Hfree)
    as (_ & H2 & H3 & _).
  split; [exact H2|]. apply H3. discriminate.
Defined.

(** X9.  A partial update through [ProductView.patch] that passes
    validation writes the slug, title, description and price the body
    supplies and keeps the stored value of each one it does not; every
    other row is untouched, and the answer is the detail of the new row. *)
Theorem patch_writes_what_is_sent request pk db obj :
  store_ok db ->
  find_product db pk = Some obj ->
  malformed (d_slug (request_data request)) = false ->
  malformed (d_title (request_data request)) = false ->
  malformed (d_description (request_data request)) = false ->
  malformed (d_price (request_data request)) = false ->
  (forall s, d_slug (request_data request) = Parsed s ->
             slug_taken db (Some pk) s = false) ->
  let d := request_data request in
  let obj' :=
    Product.mk pk (or_default (supplied (d_slug d)) (Product.slug obj))
               (or_default (supplied (d_title d)) (Product.title obj))
               (or_default (supplied (d_description d)) (Product.description obj))
               (or_default (supplied (d_price d)) (Product.price obj)) in
  let after := snd (ProductView.patch request pk db) in
  fst (ProductView.patch request pk db)
  = mk_response
      (Some (VObj [("id"%string, VInt pk);
                   ("categories"%string,
                    VList (map category_representation (categories_of db pk)));
                   ("slug"%string, VStr (Product.slug obj'));
                   ("title"%string, VStr (Product.title obj'));
                   ("description"%string, VStr (Product.description obj'));
                   ("price"%string, VInt (Product.price obj'))]))
      (Some status.HTTP_200_OK)
  /\ find_product after pk = Some obj'
  /\ (forall other, other <> pk ->
        find_product after other = find_product db other).
Proof.
  intros Hok Hf Hs Ht Hd Hp Hfree d obj' after.
  pose proof (find_product_id _ _ _ Hf) as Hid.
  assert (Hv : run_validation ProductDetailSerializer db (Some obj) true d
               = ([], mkValidated (supplied (d_slug d)) (supplied (d_title d))
                                  (supplied (d_description d))
                                  (supplied (d_price d)) None)).
  { apply validate_partial_detail_pass; auto. simpl. now rewrite Hid. }
  assert (Ha : assign obj (mkValidated (supplied (d_slug d))
                             (supplied (d_title d)) (supplied (d_description d))
                             (supplied (d_price d)) None) = obj').
  { unfold assign, obj'. simpl. now rewrite Hid. }
  assert (E : ProductView.patch request pk db
              = (mk_response (Some (to_representation ProductDetailSerializer
                                      (after_update db obj' None) obj'))
                             (Some status.HTTP_200_OK),
                 after_update db obj' None)).
  { change (ProductView.patch request pk db)
      with (handle (update_view ProductDetailSerializer true
                                (Some status.HTTP_200_OK) request pk) db).
    rewrite (update_view_valid _ _ _ _ _ _ obj _ Hf Hv); rewrite Ha.
    - reflexivity.
    - unfold obj'. cbn [Product.slug]. now apply supplied_slug_free. }
  unfold after. rewrite E. cbn [fst snd]. split; [reflexivity|].
  split; [eapply after_update_find; [exact Hf|reflexivity]|].
  intros other Hne. now apply after_update_find_other.
Qed.

Lemma patch_writes_what_is_sent_witness :
  find_product (snd (ProductView.patch sample_patch 1 sample_db)) 1
  = Some (Product.mk 1 "tea" "Sencha" "Steamed" 450).
Proof.
  assert (Hfree : forall s, d_slug (request_data sample_patch) = Parsed s ->
                            slug_taken sample_db (Some 1) s = false)
    by (intros s H; discriminate H).
  pose proof (patch_writes_what_is_sent sample_patch 1 sample_db
                (Product.mk 1 "tea" "Green tea" "Loose leaf" 450)
                sample_db_ok eq_refl eq_refl eq_refl eq_refl eq_refl Hfree)
    as (_ & H2 & _).
  exact H2.
Defined.

(** X10.  A partial update whose body supplies none of the writable fields
    changes nothing: both paths answer 200 with the row as it is stored and
    leave the database exactly as it was. *)
Theorem empty_patch_is_a_no_op request pk db obj :
  store_ok db ->
  find_product db pk = Some obj ->
  d_slug (request_data request) = Absent ->
  d_title (request_data request) = Absent ->
  d_price (request_data request) = Absent ->
  product_partial_update request pk db
  = (mk_response (Some (to_representation ProductCreateSerializer db obj))
                 (Some status.HTTP_200_OK), db)
  /\ (d_description (request_data request) = Absent ->
      ProductView.patch request pk db
      = (mk_response (Some (to_representation ProductDetailSerializer db obj))
                     (Some status.HTTP_200_OK), db)).
Proof.
  intros Hok Hf Hs Ht Hp.
  pose proof (find_product_id _ _ _ Hf) as Hid.
  pose proof (own_slug_not_taken db pk obj Hok Hf) as Hown. rewrite Hid in Hown.
  split; [|intros Hd].
  - change (product_partial_update request pk db)
      with (handle (update_view ProductCreateSerializer true None request pk) db).
    assert (Hv : run_validation ProductCreateSerializer db (Some obj) true
                                (request_data request)
                 = ([], mkValidated None None None None None)).
    { rewrite validate_partial_create_pass; rewrite ?Hs, ?Ht, ?Hp;
        try reflexivity. discriminate. }
    rewrite (update_view_valid _ _ _ _ _ _ obj _ Hf Hv);
      rewrite assign_nothing; [|exact Hown].
    cbn [v_categories]. now rewrite (after_update_self db pk obj Hok Hf).
  - change (ProductView.patch request pk db)
      with (handle (update_view ProductDetailSerializer true
                                (Some status.HTTP_200_OK) request pk) db).
    assert (Hv : run_validation ProductDetailSerializer db (Some obj) true
                                (request_data request)
                 = ([], mkValidated None None None None None)).
    { rewrite validate_partial_detail_pass; rewrite ?Hs, ?Ht, ?Hd, ?Hp;
        try reflexivity. discriminate. }
    rewrite (update_view_valid _ _ _ _ _ _ obj _ Hf Hv);
      rewrite assign_nothing; [|exact Hown].
    cbn [v_categories]. now rewrite (after_update_self db pk obj Hok Hf).
Qed.

Lemma empty_patch_is_a_no_op_witness :
  snd (product_partial_update empty_request 2 sample_db) = sample_db
  /\ snd (ProductView.patch empty_request 2 sample_db) = sample_db.
Proof.
  pose proof (empty_patch_is_a_no_op empty_request 2 sample_db
                (Product.mk 2 "mug" "Mug" "" 900)
                sample_db_ok eq_refl eq_refl eq_refl eq_refl) as [H1 H2].
  split.
  - now rewrite H1.
  - now rewrite (H2 eq_refl).
Defined.





Lemma product_update_same_values request pk db obj :
  store_ok db ->
  find_product db pk = Some obj ->
  d_slug (request_data request) = Parsed (Product.slug obj) ->
  d_title (request_data request) = Parsed (Product.title obj) ->
  d_price (request_data request) = Parsed (Product.price obj) ->
  product_update request pk db
  = (mk_response (Some (to_representation ProductCreateSerializer db obj))
                 (Some status.HTTP_200_OK), db).
Proof.
  intros Hok Hf Hs Ht Hp.
  pose proof (find_product_id _ _ _ Hf) as Hid.
  pose proof (own_slug_not_taken db pk obj Hok Hf) as Hown. rewrite Hid in Hown.
  rewrite (product_update_valid request pk db obj _ _ _ Hf Hs Ht Hp Hown).
  replace (Product.mk pk (Product.slug obj) (Product.title obj)
                      (Product.description obj) (Product.price obj))
    with obj by (rewrite <- Hid; now destruct obj).
  rewrite (after_update_self db pk obj Hok Hf). now rewrite <- Hid.
Qed.

(** X12.  A product can be sent the body it was created from: after a
    create that passes validation, a full update of the new id through
    [product_update] with the same body is accepted, although the slug is
    stored by then, because the unique check leaves out the row under
    update; it answers 200 and leaves the database exactly as the create
    left it. *)
Theorem create_then_same_update_changes_nothing request db s t pr :
  store_ok db ->
  d_slug (request_data request) = Parsed s ->
  ~ In s (product_slugs db) ->
  d_title (request_data request) = Parsed t ->
  d_price (request_data request) = Parsed pr ->
  product_update request (Product_seq db) (snd (product_create request db))
  = (mk_response
       (Some (VObj [("id"%string, VInt (Product_seq db));
                    ("slug"%string, VStr s); ("title"%string, VStr t);
                    ("price"%string, VInt pr)]))
       (Some status.HTTP_200_OK),
     snd (product_create request db)).
Proof.
  intros Hok Hs Hfree Ht Hp.
  rewrite (product_create_valid request db s t pr Hs Hfree Ht Hp). cbn [snd].
  set (obj := Product.mk (Product_seq db) s t EmptyString pr).
  assert (Hok' : store_ok (after_insert db obj None)).
  { apply store_ok_after_insert; [exact Hok|reflexivity|].
    now apply slug_taken_None_false. }
  assert (Hf : find_product (after_insert db obj None) (Product_seq db)
               = Some obj).
  { apply (after_insert_find db obj None). now apply seq_fresh. }
  now rewrite (product_update_same_values request (Product_seq db)
                 (after_insert db obj None) obj Hok' Hf Hs Ht Hp).
Qed.

Lemma create_then_same_update_changes_nothing_witness :
  product_update new_cup 3 (snd (product_create new_cup sample_db))
  = (mk_response
       (Some (VObj [("id"%string, VInt 3); ("slug"%string, VStr "cup");
                    ("title"%string, VStr "Cup"); ("price"%string, VInt 250)]))
       (Some 200),
     snd (product_create new_cup sample_db)).
Proof.
  assert (Hfree : ~ In "cup"%string (product_slugs sample_db)).
  { simpl. intuition discriminate. }
  exact (create_then_same_update_changes_nothing new_cup sample_db
           "cup"%string "Cup"%string 250 sample_db_ok eq_refl Hfree
           eq_refl eq_refl).
Defined.

(** Creating, then reading or deleting. *)

Lemma categories_of_unlinked db pid :
  (forall l, In l (product_categories db) -> fst l <> pid) ->
  categories_of db pid = [].
Proof.
  intros H. unfold categories_of.
  induction (Category_table db) as [|c cs IH]; simpl; [reflexivity|].
  destruct (existsb _ (product_categories db)) eqn:E; [|exact IH].
  apply existsb_exists in E. destruct E as [l [Hl Hm]].
  apply andb_true_iff in Hm. destruct Hm as [Hm _]. apply Z.eqb_eq in Hm.
  exfalso. now apply (H l Hl).
Qed.

Lemma links_ok_fresh db l :
  store_ok db -> links_ok db -> In l (product_categories db) ->
  fst l <> Product_seq db.
Proof.
  intros Hok Hl Hin E. unfold links_ok in Hl. rewrite Forall_forall in Hl.
  apply Hl in Hin. rewrite E in Hin. now apply (seq_fresh db Hok).
Qed.

Lemma filter_all {A} (f : A -> bool) (l : list A) :
  (forall x, In x l -> f x = true) -> filter f l = l.
Proof.
  induction l as [|a l IH]; simpl; [reflexivity|]. intros H.
  rewrite (H a) by auto. rewrite IH; auto.
Qed.

(** X13.  A product that was just created can be fetched: the detail view
    for the id the create answered with shows the submitted slug, title
    and price, an empty description and no categories. *)
Theorem create_then_detail request request' db s t pr :
  store_ok db -> links_ok db ->
  d_slug (request_data request) = Parsed s ->
  ~ In s (product_slugs db) ->
  d_title (request_data request) = Parsed t ->
  d_price (request_data request) = Parsed pr ->
  fst (product_detail request' (Product_seq db)
                      (snd (product_create request db)))
  = mk_response
      (Some (VObj [("id"%string, VInt (Product_seq db));
                   ("categories"%string, VList []);
                   ("slug"%string, VStr s); ("title"%string, VStr t);
                   ("description"%string, VStr EmptyString);
                   ("price"%string, VInt pr)]))
      (Some status.HTTP_200_OK).
Proof.
  intros Hok Hl Hs Hfree Ht Hp.
  rewrite (product_create_valid request db s t pr Hs Hfree Ht Hp). cbn [snd].
  rewrite detail_cases.
  rewrite (after_insert_find db (Product.mk (Product_seq db) s t EmptyString pr))
    by (apply seq_fresh; exact Hok).
  cbn [fst]. unfold to_representation. cbn [map Meta_fields ProductDetailSerializer
    all_fields_categories_declared field_name field_representation
    categories_nested_read_only
    Product.id Product.slug Product.title Product.description Product.price].
  rewrite categories_of_unlinked; [reflexivity|].
  intros l Hin. simpl in Hin. now apply links_ok_fresh.
Qed.

Lemma sample_db_links_ok : links_ok sample_db.
Proof. unfold links_ok. simpl. repeat constructor. Defined.

Lemma create_then_detail_witness :
  fst (product_detail empty_request 3 (snd (product_create new_cup sample_db)))
  = mk_response
      (Some (VObj [("id"%string, VInt 3);
                   ("categories"%string, VList []);
                   ("slug"%string, VStr "cup");
                   ("title"%string, VStr "Cup");
                   ("description"%string, VStr EmptyString);
                   ("price"%string, VInt 250)]))
      (Some 200).
Proof.
  assert (Hfree : ~ In "cup"%string (product_slugs sample_db)).
  { simpl. intuition discriminate. }
  exact (create_then_detail new_cup empty_request sample_db "cup"%string
           "Cup"%string 250 sample_db_ok sample_db_links_ok
           eq_refl Hfree eq_refl eq_refl).
Defined.

(** X14.  Deleting a product right after creating it restores the product
    table and the link table; only the id sequence has moved on, so the
    id is not handed out again. *)
Theorem create_then_delete_restores request request' db s t pr :
  store_ok db -> links_ok db ->
  d_slug (request_data request) = Parsed s ->
  ~ In s (product_slugs db) ->
  d_title (request_data request) = Parsed t ->
  d_price (request_data request) = Parsed pr ->
  product_delete request' (Product_seq db) (snd (product_create request db))
  = (mk_response None (Some status.HTTP_204_NO_CONTENT),
     mkStore (Product_table db) (Category_table db) (product_categories db)
             (Product_seq db + 1)).
Proof.
  intros Hok Hl Hs Hfree Ht Hp.
  rewrite (product_create_valid request db s t pr Hs Hfree Ht Hp). cbn [snd].
  rewrite delete_cases.
  rewrite (after_insert_find db (Product.mk (Product_seq db) s t EmptyString pr))
    by (apply seq_fresh; exact Hok).
  f_equal. unfold after_delete, after_insert, links_after. simpl. f_equal.
  - rewrite filter_app. simpl. rewrite Z.eqb_refl. simpl. rewrite app_nil_r.
    apply filter_all. intros p Hin. apply negb_true_iff, Z.eqb_neq.
    intros E. apply (seq_fresh db Hok). rewrite <- E.
    unfold product_ids. now apply in_map.
  - apply filter_all. intros l Hin. apply negb_true_iff, Z.eqb_neq.
    now apply links_ok_fresh.
Qed.

Lemma create_then_delete_restores_witness :
  snd (product_delete empty_request 3 (snd (product_create new_cup sample_db)))
  = mkStore (Product_table sample_db) (Category_table sample_db)
            (product_categories sample_db) 4.
Proof.
  assert (Hfree : ~ In "cup"%string (product_slugs sample_db)).
  { simpl. intuition discriminate. }
  exact (f_equal snd
           (create_then_delete_restores new_cup empty_request sample_db
              "cup"%string "Cup"%string 250 sample_db_ok sample_db_links_ok
              eq_refl Hfree eq_refl eq_refl)).
Defined.

Lemma product_list_cases request db :
  product_list request db
  = (mk_response
       (Some (VList (map (to_representation ProductListSerializer db)
                         (Product_table db))))
       (Some status.HTTP_200_OK), db).
Proof. reflexivity. Qed.

(** X15.  The list view shows the stored products in storage order, and a
    create appends: after a create that passes validation the list is the
    list from before followed by the summary of the new product. *)
Theorem create_appends_to_list request request' db s t pr :
  d_slug (request_data request) = Parsed s ->
  ~ In s (product_slugs db) ->
  d_title (request_data request) = Parsed t ->
  d_price (request_data request) = Parsed pr ->
  exists items,
    List.length items = List.length (Product_table db)
    /\ fst (product_list request' db)
       = mk_response (Some (VList items)) (Some status.HTTP_200_OK)
    /\ fst (product_list request' (snd (product_create request db)))
       = mk_response
           (Some (VList (items
                         ++ [VObj [("id"%string, VInt (Product_seq db));
                                   ("slug"%string, VStr s);
                                   ("title"%string, VStr t);
                                   ("description"%string, VStr EmptyString);
                                   ("price"%string, VInt pr)]])))
           (Some status.HTTP_200_OK).
Proof.
  intros Hs Hfree Ht Hp.
  exists (map (to_representation ProductListSerializer db) (Product_table db)).
  split; [apply length_map|]. split; [reflexivity|].
  rewrite (product_create_valid request db s t pr Hs Hfree Ht Hp). cbn [snd].
  rewrite product_list_cases. cbn [fst after_insert Product_table].
  rewrite map_app. reflexivity.
Qed.

Lemma create_appends_to_list_witness :
  exists items,
    List.length items = 2%nat
    /\ data (fst (product_list empty_request
                               (snd (product_create new_cup sample_db))))
       = Some (VList
                 (items
                  ++ [VObj [("id"%string, VInt 3); ("slug"%string, VStr "cup");
                            ("title"%string, VStr "Cup");
                            ("description"%string, VStr EmptyString);
                            ("price"%string, VInt 250)]])).
Proof.
  assert (Hfree : ~ In "cup"%string (product_slugs sample_db)).
  { simpl. intuition discriminate. }
  destruct (create_appends_to_list new_cup empty_request sample_db
              "cup"%string "Cup"%string 250 eq_refl Hfree eq_refl eq_refl)
    as (items & Hlen & _ & H).
  exists items. split; [exact Hlen|]. now rewrite H.
Defined.

(** The link table follows the product table. *)

Lemma links_ok_ids db db' :
  product_categories db' = product_categories db ->
  incl (product_ids db) (product_ids db') ->
  links_ok db -> links_ok db'.
Proof.
  unfold links_ok. intros -> Hincl H. eapply Forall_impl; [|exact H].
  intros l Hl. now apply Hincl.
Qed.

Lemma update_view_ids c p st request pk db :
  product_ids (snd (handle (update_view c p st request pk) db)) = product_ids db.
Proof.
  rewrite update_view_cases.
  destruct (find_product db pk) as [obj|]; [|reflexivity].
  destruct (run_validation c db (Some obj) p (request_data request))
    as [[|e errs] vd]; [|reflexivity].
  cbv zeta. destruct (slug_taken db _ _); [reflexivity|].
  unfold product_ids, after_update. simpl. apply replace_ids.
Qed.

Lemma update_view_links_ok c p st request pk db :
  (In f_categories (Meta_fields c) -> read_only c f_categories = true) ->
  links_ok db -> links_ok (snd (handle (update_view c p st request pk) db)).
Proof.
  intros Hro. apply links_ok_ids.
  - now apply update_view_keeps_links.
  - rewrite update_view_ids. apply incl_refl.
Qed.

Lemma product_create_links_ok request db :
  links_ok db -> links_ok (snd (product_create request db)).
Proof.
  rewrite product_create_cases.
  pose proof (validated_categories_read_only ProductCreateSerializer db None
                false (request_data request)) as Hc.
  destruct (run_validation ProductCreateSerializer db None false
                           (request_data request)) as [[|e errs] vd]; auto.
  simpl in Hc. rewrite Hc by (intros [H|[H|[H|[H|[]]]]]; discriminate H).
  destruct (v_price vd) as [pr|]; auto. cbv zeta.
  destruct (slug_taken db None _); auto. cbn [snd].
  apply links_ok_ids; [reflexivity|].
  unfold product_ids, after_insert. simpl. rewrite map_app.
  apply incl_appl, incl_refl.
Qed.

Lemma after_delete_links_ok db pk : links_ok db -> links_ok (after_delete db pk).
Proof.
  unfold links_ok, after_delete, product_ids. simpl.
  rewrite !Forall_forall. intros H l Hl. apply filter_In in Hl.
  destruct Hl as [Hl Hne]. apply negb_true_iff, Z.eqb_neq in Hne.
  specialize (H l Hl). apply in_map_iff in H. destruct H as [q [Hq Hin]].
  apply in_map_iff. exists q. split; [exact Hq|].
  apply filter_In. split; [exact Hin|].
  apply negb_true_iff, Z.eqb_neq. congruence.
Qed.

Lemma serve_links_ok e request db :
  links_ok db -> links_ok (snd (serve e request db)).
Proof.
  intros Hl.
  assert (Hdetail : read_only ProductDetailSerializer f_categories = true)
    by reflexivity.
  assert (Hcreate : In f_categories (Meta_fields ProductCreateSerializer) ->
                    read_only ProductCreateSerializer f_categories = true)
    by (intros [H|[H|[H|[H|[]]]]]; discriminate H).
  assert (Hdel : forall pk, links_ok (snd (product_delete request pk db))).
  { intros pk. rewrite delete_cases. destruct (find_product db pk); auto.
    now apply after_delete_links_ok. }
  destruct e as [ |pk| |pk|pk|pk|[pk|]| |pk|pk|pk]; simpl.
  - exact Hl.
  - now rewrite product_detail_store.
  - now apply product_create_links_ok.
  - now apply (update_view_links_ok ProductCreateSerializer false None).
  - now apply (update_view_links_ok ProductCreateSerializer true None).
  - apply Hdel.
  - change (ProductView.get request (Some pk) db)
      with (product_detail request pk db).
    now rewrite product_detail_store.
  - exact Hl.
  - now apply product_create_links_ok.
  - apply (update_view_links_ok ProductDetailSerializer false
             (Some status.HTTP_200_OK)); auto.
  - apply (update_view_links_ok ProductDetailSerializer true
             (Some status.HTTP_200_OK)); auto.
  - apply Hdel.
Qed.

(** X16.  The category links follow the products: when every link row
    refers to a stored product before an HTTP request, so it does after
    it; hence a product that is not stored, a deleted one in particular,
    has no categories left. *)
Theorem links_follow_products m s request db :
  links_ok db ->
  let after := snd (http m s request db) in
  links_ok after
  /\ (forall pk, find_product after pk = None -> categories_of after pk = []).
Proof.
  intros Hl after.
  assert (H : links_ok after).
  { unfold after.
    destruct (http_cases m s request db)
      as [(e & -> & _)|[->|[->|[-> _]]]]; auto.
    now apply serve_links_ok. }
  split; [exact H|]. intros pk Hf. apply categories_of_unlinked.
  intros l Hin E. unfold links_ok in H. rewrite Forall_forall in H.
  apply H in Hin. rewrite E in Hin. now apply find_product_None in Hf.
Qed.

Lemma links_follow_products_witness :
  categories_of sample_db 1 = [Category.mk 1 [("name"%string, VStr "Drinks")]]
  /\ categories_of (snd (http DELETE "delete/1" empty_request sample_db)) 1 = []
  /\ product_categories (snd (http DELETE "delete/1" empty_request sample_db))
     = [].
Proof.
  split; [reflexivity|]. split; [|reflexivity].
  pose proof (links_follow_products DELETE "delete/1" empty_request sample_db
                sample_db_links_ok) as H.
  cbv zeta in H. destruct H as [_ H]. apply H. reflexivity.
Defined.

(** The authors URL table. *)

(** X17.  In the authors table the empty path leads to the list view and
    a primary key written in decimal and followed by a slash leads to the
    detail view with that key; the same digits without the slash match no
    pattern. *)
Theorem author_routes_read_the_key n :
  0 <= n ->
  resolve urlpatterns EmptyString = Some (authors_list_view, [])
  /\ resolve urlpatterns (decimal n ++ "/")%string
     = Some (author_detail_view, [("pk"%string, n)])
  /\ resolve urlpatterns (decimal n) = None.
Proof.
  intros Hn. split; [reflexivity|]. split.
  - cbn [resolve urlpatterns route view].
    rewrite match_end_decimal, match_int_slash by exact Hn. reflexivity.
  - cbn [resolve urlpatterns route view].
    rewrite match_end_decimal_only, match_int_slash_end by exact Hn.
    reflexivity.
Qed.

Lemma author_routes_read_the_key_witness :
  resolve urlpatterns "2024/" = Some (author_detail_view, [("pk"%string, 2024)])
  /\ resolve urlpatterns "2024" = None.
Proof.
  assert (H : 0 <= 2024) by lia.
  pose proof (author_routes_read_the_key 2024 H) as (_ & H2 & H3).
  split; [exact H2|exact H3].
Defined.

(** X18.  Whatever path the authors table resolves, the list view is
    reached by the empty path only and is given no argument, and the detail
    view is always given exactly one argument, [pk], which is a number
    read from digits and so never negative. *)
Theorem author_routes_bind_the_key s v kw :
  resolve urlpatterns s = Some (v, kw) ->
  (v = authors_list_view /\ s = EmptyString /\ kw = [])
  \/ (v = author_detail_view /\ s <> EmptyString
      /\ exists n, 0 <= n /\ kw = [("pk"%string, n)]
                   /\ kwarg "pk" kw = Some n).
Proof.
  cbn [resolve urlpatterns route view].
  destruct s as [|c s].
  - intros H. injection H as <- <-. left. auto.
  - rewrite match_route_more.
    destruct (match_route [int_param "pk"; literal "/"] (String c s))
      as [kw'|] eqn:E; [|discriminate].
    intros H. injection H as <- <-. right.
    split; [reflexivity|]. split; [discriminate|].
    apply match_route_binds in E. destruct E as [E1 E2].
    destruct (binds_pk kw' E1 E2) as (n & Hn & ->).
    exists n. auto.
Qed.

Lemma author_routes_bind_the_key_witness :
  exists n, 0 <= n /\ kwarg "pk" [("pk"%string, 7)] = Some n.
Proof.
  destruct (author_routes_bind_the_key "7/" author_detail_view
              [("pk"%string, 7)] eq_refl)
    as [(H & _)|(_ & _ & n & Hn & _ & Hk)]; [discriminate H|].
  exists n. split; [exact Hn|exact Hk].
Defined.

(** The authors surface. *)






(** X19.  Once a user is saved, the email is taken: a second user with the
    same email cannot be saved into the resulting table, and the table
    holds the emails it held before followed by the new one. *)
Theorem saved_email_is_taken u u' users users' :
  CustomUser.save u users = inr users' ->
  CustomUser.email u' = CustomUser.email u ->
  CustomUser.save u' users' = inl IntegrityError
  /\ CustomUser.emails users'
     = (CustomUser.emails users ++ [CustomUser.email u])%list.
Proof.
  unfold CustomUser.save. intros H He.
  destruct (existsb _ users) eqn:E; [discriminate|]. injection H as <-.
  split.
  - rewrite existsb_app. simpl. rewrite He, String.eqb_refl.
    now rewrite orb_true_r.
  - unfold CustomUser.emails. now rewrite map_app.
Qed.

Lemma saved_email_is_taken_witness :
  CustomUser.save (CustomUser.new 900 (only_email "nino@example.com"))
    (sample_users ++ [CustomUser.new 500 (only_email "nino@example.com")])
  = inl IntegrityError.
Proof.
  exact (proj1 (saved_email_is_taken
                  (CustomUser.new 500 (only_email "nino@example.com"))
                  (CustomUser.new 900 (only_email "nino@example.com"))
                  sample_users _ eq_refl eq_refl)).
Defined.
